(** * The MercadoLibre client of api-libreria-nestjs

    A shallow embedding of [src/meli/meli.functions.ts]: the class
    [MeliFunctions], its axios instance with the two interceptors installed by
    the constructor, and the operations built on that instance.

    The collaborators that are not part of the file (the upstream API behind
    the axios adapter, [MeliOauth.refreshAccessToken], the event emitter) are
    fields of a [World]; every effect of the class is recorded, in program
    order, in the [log] of the [State]. *)

From Stdlib Require Import ZArith String List Bool Lia DecimalString.
Import ListNotations.

Open Scope string_scope.
Open Scope list_scope.
Open Scope Z_scope.

(** ** JavaScript values *)

(** The primitive values the operations receive as identifiers, filters and
    counts. Numbers are the integers (identifiers, limits, offsets, stock). *)
Inductive JsPrim :=
| JNum (n : Z)
| JStr (s : string).

(** [toString()], also what a template literal and [URLSearchParams.append]
    apply to a value. *)
Definition toString (v : JsPrim) : string :=
  match v with
  | JNum n => NilZero.string_of_int (Z.to_int n)
  | JStr s => s
  end.

(** Truthiness of a primitive: [0] and the empty string are falsy. *)
Definition truthy (v : JsPrim) : bool :=
  match v with
  | JNum n => negb (n =? 0)
  | JStr s => negb (s =? "")%string
  end.

(** Truthiness of an optional property [o?.p]: [undefined] is falsy. *)
Definition truthy_opt (v : option JsPrim) : bool :=
  match v with
  | Some x => truthy x
  | None => false
  end.

(** Plain JSON bodies. *)
#[warnings="-register-all"]
Inductive Json :=
| JPrim (v : JsPrim)
| JObject (members : list (string * Json)).

(** ** URLSearchParams: an ordered list of name/value pairs *)

Module URLSearchParams.

Definition t := list (string * string).

Definition empty : t := [].

Definition append (name value : string) (p : t) : t := p ++ [(name, value)].

(** [delete(name)] removes every pair whose name is exactly [name]. *)
Definition delete (name : string) (p : t) : t :=
  filter (fun kv => negb (fst kv =? name)%string) p.

Definition has (name : string) (p : t) : bool :=
  existsb (fun kv => (fst kv =? name)%string) p.

Definition getAll (name : string) (p : t) : list string :=
  map snd (filter (fun kv => (fst kv =? name)%string) p).

End URLSearchParams.

(** ** Requests, responses and errors *)

Inductive Method := GET | POST | PUT | DELETE.

(** The axios request configuration, with the extra property [sent] that the
    response interceptor sets on a request it has retried. *)
Record RequestConfig := mkRequest {
  baseURL : string;
  method : Method;
  url : string;
  params : URLSearchParams.t;
  data : option Json;
  Authorization : option string;
  sent : bool
}.

Definition set_Authorization (h : string) (c : RequestConfig) : RequestConfig :=
  mkRequest (baseURL c) (method c) (url c) (params c) (data c) (Some h) (sent c).

Definition set_sent (b : bool) (c : RequestConfig) : RequestConfig :=
  mkRequest (baseURL c) (method c) (url c) (params c) (data c) (Authorization c) b.

Definition set_baseURL (u : string) (c : RequestConfig) : RequestConfig :=
  mkRequest u (method c) (url c) (params c) (data c) (Authorization c) (sent c).

Module Response.
Record t := mk {
  status : Z;
  data : string;
  config : RequestConfig
}.
End Response.

Inductive ErrorActions := LinkMeli.

(** What a promise can be rejected with. An [AxiosError] has
    [isAxiosError = true] and carries the request configuration; it has a
    [response] when the upstream answered with a status outside 2xx and none
    when the failure is at network level. *)
Inductive Error :=
| AxiosError (config : RequestConfig) (response : option Response.t)
| UnauthorizedException (message : string) (action : ErrorActions)
| OtherError (name : string).

Definition isAxiosError (e : Error) : bool :=
  match e with
  | AxiosError _ _ => true
  | _ => false
  end.

(** What an operation hands back to its caller with [return]. *)
Inductive Value :=
| VResponse (r : Response.t)
| VUndefined
| VExceptionBody (message : string) (action : ErrorActions).

(** The property [error.response]. Nest's [HttpException] keeps the object it
    was built from in a property of that name. *)
Definition error_response (e : Error) : Value :=
  match e with
  | AxiosError _ (Some r) => VResponse r
  | AxiosError _ None => VUndefined
  | UnauthorizedException m a => VExceptionBody m a
  | OtherError _ => VUndefined
  end.

(** ** The collaborators *)

(** The body of the refresh endpoint's answer: a new pair of tokens, or an
    object with the key [error]. *)
Inductive RefreshData :=
| RefreshTokens (access_token refresh_token : string)
| RefreshFailure (error : string).

Inductive TransportReply :=
| Replied (status : Z) (data : string)
| NetworkFailure (code : string).

Inductive ConsoleLine :=
| LogText (s : string)
| LogError (e : Error).

(** The observable effects of the class. *)
Inductive Event :=
| EvDispatch (config : RequestConfig)
| EvRefresh (refreshToken : string)
| EvSetAccess (newToken : string)
| EvSetRefresh (newToken : string)
| EvEmit (name : string) (payload : RefreshData)
| EvConsole (line : ConsoleLine).

(** The environment. Each collaborator answers from what has happened so far
    and from what it is given; [refreshAccessToken] and [emitAsync] may
    reject. *)
Record World := mkWorld {
  MELI_API_URL : string;
  adapter : list Event -> RequestConfig -> TransportReply;
  refreshAccessToken : list Event -> string -> Error + RefreshData;
  emitAsync : list Event -> string -> RefreshData -> option Error
}.

(** [req.user.config] *)
Record UserConfig := mkUserConfig {
  meliAccess : string;
  meliRefresh : string;
  meliId : JsPrim
}.

Record State := mkState {
  userConfig : UserConfig;
  log : list Event
}.

Definition record (ev : Event) (st : State) : State :=
  mkState (userConfig st) (log st ++ [ev]).

(** ** Promises: state passing with rejection *)

Inductive Completion (A : Type) :=
| Resolved (a : A)
| Rejected (e : Error)
| OutOfFuel.

Arguments Resolved {A} a.
Arguments Rejected {A} e.
Arguments OutOfFuel {A}.

Definition M (A : Type) : Type := State -> Completion A * State.

Definition ret {A} (a : A) : M A := fun st => (Resolved a, st).

Definition throw {A} (e : Error) : M A := fun st => (Rejected e, st).

Definition bind {A B} (m : M A) (k : A -> M B) : M B :=
  fun st =>
    match m st with
    | (Resolved a, st') => k a st'
    | (Rejected e, st') => (Rejected e, st')
    | (OutOfFuel, st') => (OutOfFuel, st')
    end.

(** [try { m } catch (error) { handler error }] *)
Definition try_catch {A} (m : M A) (handler : Error -> M A) : M A :=
  fun st =>
    match m st with
    | (Rejected e, st') => handler e st'
    | r => r
    end.

Declare Scope promise_scope.
Delimit Scope promise_scope with promise.
Notation "x <- m ;; k" := (bind m (fun x => k))
  (at level 61, m at next level, right associativity) : promise_scope.
Notation "m ;; k" := (bind m (fun _ => k))
  (at level 61, right associativity) : promise_scope.
Open Scope promise_scope.

Definition emit_event (ev : Event) : M unit :=
  fun st => (Resolved tt, record ev st).

Definition console_log (line : ConsoleLine) : M unit :=
  emit_event (EvConsole line).

(** The getters and setters of the class. *)
Definition get_token : M string :=
  fun st => (Resolved (meliAccess (userConfig st)), st).

Definition get_refreshToken : M string :=
  fun st => (Resolved (meliRefresh (userConfig st)), st).

Definition get_sellerId : M JsPrim :=
  fun st => (Resolved (meliId (userConfig st)), st).

Definition set_token (newToken : string) : M unit :=
  fun st =>
    let c := userConfig st in
    (Resolved tt,
     record (EvSetAccess newToken)
       (mkState (mkUserConfig newToken (meliRefresh c) (meliId c)) (log st))).

Definition set_refreshToken (newToken : string) : M unit :=
  fun st =>
    let c := userConfig st in
    (Resolved tt,
     record (EvSetRefresh newToken)
       (mkState (mkUserConfig (meliAccess c) newToken (meliId c)) (log st))).

(** [await this.meliOauth.refreshAccessToken(token)], taken to its [data]. *)
Definition oauth_refresh (w : World) (token : string) : M RefreshData :=
  fun st =>
    let st' := record (EvRefresh token) st in
    match refreshAccessToken w (log st) token with
    | inr d => (Resolved d, st')
    | inl e => (Rejected e, st')
    end.

(** [await this.emitter.emitAsync(name, payload)] *)
Definition emitter_emitAsync (w : World) (name : string) (payload : RefreshData) : M unit :=
  fun st =>
    let st' := record (EvEmit name payload) st in
    match emitAsync w (log st) name payload with
    | None => (Resolved tt, st')
    | Some e => (Rejected e, st')
    end.

(** ** The axios instance *)

(** axios resolves a reply whose status is 2xx and rejects every other one
    with an [AxiosError] that holds the response; a failure of the transport
    itself is rejected with an [AxiosError] without response. *)
Definition validateStatus (status : Z) : bool :=
  (200 <=? status) && (status <? 300).

Definition settle (config : RequestConfig) (reply : TransportReply) : Completion Response.t :=
  match reply with
  | Replied status body =>
      let res := Response.mk status body config in
      if validateStatus status then Resolved res
      else Rejected (AxiosError config (Some res))
  | NetworkFailure _ => Rejected (AxiosError config None)
  end.

Definition dispatchRequest (w : World) (config : RequestConfig) : M Response.t :=
  fun st => (settle config (adapter w (log st) config), record (EvDispatch config) st).

(** The request interceptor. *)
Definition requestInterceptor (config : RequestConfig) : M RequestConfig :=
  token <- get_token ;;
  ret (set_Authorization ("Bearer " ++ token)%string config).

Definition errorCodes : list Z := [401].

Definition includes (codes : list Z) (status : Z) : bool :=
  existsb (Z.eqb status) codes.

(** The rejection handler of the response interceptor; [self] is
    [this.httpInstance]. The test reads [error?.response?.status] and
    [error?.config?.sent], so only an [AxiosError] with a response passes it. *)
Definition responseRejected (self : RequestConfig -> M Response.t) (w : World)
    (error : Error) : M Response.t :=
  match error with
  | AxiosError prevRequest (Some res) =>
      if includes errorCodes (Response.status res) && negb (sent prevRequest) then
        let prevRequest := set_sent true prevRequest in
        console_log (LogText "refreshing after request error") ;;
        token <- get_refreshToken ;;
        refreshResponse_data <- oauth_refresh w token ;;
        match refreshResponse_data with
        | RefreshFailure _ =>
            throw (UnauthorizedException "Please link meli again" LinkMeli)
        | RefreshTokens access_token refresh_token =>
            set_token access_token ;;
            set_refreshToken refresh_token ;;
            token <- get_token ;;
            let prevRequest := set_Authorization ("Bearer " ++ token)%string prevRequest in
            emitter_emitAsync w "meli.tokens.update" refreshResponse_data ;;
            self prevRequest
        end
      else throw error
  | _ => throw error
  end.

(** [this.httpInstance(config)]: defaults merged in, request interceptor,
    dispatch, response interceptor. The retry inside the response interceptor
    is a nested call, which [fuel] bounds. *)
Fixpoint httpInstance (fuel : nat) (w : World) (config : RequestConfig) : M Response.t :=
  match fuel with
  | O => fun st => (OutOfFuel, st)
  | S fuel' =>
      config <- requestInterceptor (set_baseURL (MELI_API_URL w) config) ;;
      try_catch (dispatchRequest w config) (responseRejected (httpInstance fuel' w) w)
  end.

(** Two levels of nesting are all the instance ever uses: the request and its
    one retry ([httpInstance_fuel] below). *)
Definition retry_depth : nat := 2.

Definition axios (w : World) (m : Method) (url : string)
    (params : URLSearchParams.t) (body : option Json) : M Response.t :=
  httpInstance retry_depth w (mkRequest "" m url params body None false).

Definition axios_get (w : World) (url : string) (params : URLSearchParams.t) :=
  axios w GET url params None.

Definition axios_delete (w : World) (url : string) := axios w DELETE url [] None.

Definition axios_post (w : World) (url : string) (body : Json) :=
  axios w POST url [] (Some body).

Definition axios_put (w : World) (url : string) (body : Json) :=
  axios w PUT url [] (Some body).

(** ** The operations of MeliFunctions *)

(** [const response = await m; return response] *)
Definition returning (m : M Response.t) : M Value :=
  response <- m ;; ret (VResponse response).

(** The [catch] block that the operations share:
    [if (error.isAxiosError) return error.response; throw error], after
    [console.log(error)] in the operations that log. *)
Definition catch_block (logs : bool) (error : Error) : M Value :=
  (if logs then console_log (LogError error) else ret tt) ;;
  if isAxiosError error then ret (error_response error) else throw error.

(** Optional chaining [o?.p] and the string conversions of optional values. *)
Definition chain {A B} (o : option A) (p : A -> option B) : option B :=
  match o with
  | Some x => p x
  | None => None
  end.

Notation "o ?. p" := (chain o p) (at level 8, p at level 1, left associativity, format "o ?. p").

Definition stringify (v : option JsPrim) : string :=
  match v with
  | Some x => toString x
  | None => "undefined"
  end.

(** [s || fallback] for an optional string: the empty string is falsy. *)
Definition or_else (s : option string) (fallback : string) : string :=
  match s with
  | Some x => if (x =? "")%string then fallback else x
  | None => fallback
  end.

Module Sort.
Record t := mk {
  order : JsPrim;
  fields : JsPrim
}.
End Sort.

Module GetQuestionsFilters.
Record t := mk {
  from : option JsPrim;
  item : option JsPrim;
  status : option JsPrim;
  sort : option Sort.t;
  limit : option JsPrim;
  offset : option JsPrim;
  questionId : option JsPrim
}.

Definition none : t := mk None None None None None None None.
End GetQuestionsFilters.

Import GetQuestionsFilters(from, item, sort, limit, offset, questionId).

(** The path and the query that [getQuestions] builds before it dispatches. *)
Definition getQuestions_request (sellerId : JsPrim)
    (filters : option GetQuestionsFilters.t) : string * URLSearchParams.t :=
  let params := URLSearchParams.empty in
  let url := "/questions/search" in
  let '(url, params) :=
    if truthy_opt filters?.from && truthy_opt filters?.item then
      let params := URLSearchParams.append "from" (stringify filters?.from) params in
      let params := URLSearchParams.append "item" (stringify filters?.item) params in
      ("/questions/search", params)
    else
      (url, URLSearchParams.append "seller_id" (toString sellerId) params) in
  let params :=
    if truthy_opt filters?.(GetQuestionsFilters.status) then
      URLSearchParams.append "status" (stringify filters?.(GetQuestionsFilters.status)) params
    else
      URLSearchParams.append "status" "UNANSWERED" params in
  let params :=
    match filters?.sort with
    | Some s =>
        let params := URLSearchParams.append "sort_types" (toString (Sort.order s)) params in
        URLSearchParams.append "sort_fields" (toString (Sort.fields s)) params
    | None => params
    end in
  let params :=
    URLSearchParams.append "limit" (or_else (option_map toString filters?.limit) "25") params in
  let params :=
    URLSearchParams.append "offset" (or_else (option_map toString filters?.offset) "0") params in
  let '(url, params) :=
    if truthy_opt filters?.questionId then
      (("/questions/" ++ stringify filters?.questionId)%string,
       URLSearchParams.delete "*" params)
    else (url, params) in
  let params := URLSearchParams.append "api_version" "4" params in
  (url, params).

Definition getQuestions (w : World) (filters : option GetQuestionsFilters.t) : M Value :=
  sellerId <- get_sellerId ;;
  let '(url, params) := getQuestions_request sellerId filters in
  try_catch (returning (axios_get w url params)) (catch_block false).

Definition getQuestionsResponseTime (w : World) : M Value :=
  sellerId <- get_sellerId ;;
  try_catch
    (returning (axios_get w (toString sellerId ++ "/questions/response_time")%string []))
    (catch_block true).

Definition answerQuestion (w : World) (id answer : JsPrim) : M Value :=
  try_catch
    (returning
       (axios_post w "/answers"
          (JObject [("question_id", JPrim id); ("text", JPrim answer)])))
    (catch_block false).

Definition deleteQuestion (w : World) (questionId : JsPrim) : M Value :=
  try_catch
    (returning (axios_delete w ("/questions/" ++ toString questionId)%string))
    (catch_block true).

Definition searchForItems (w : World) (searchQuery : JsPrim) : M Value :=
  sellerId <- get_sellerId ;;
  try_catch
    (returning
       (axios_get w
          ("/users/" ++ toString sellerId ++ "/items/search?q="
             ++ toString searchQuery ++ "&status=active")%string []))
    (catch_block true).

Definition publishItem (w : World) (itemInfo : Json) : M Value :=
  try_catch (returning (axios_post w "/items" itemInfo)) (catch_block true).

Definition addDescription (w : World) (itemId description : JsPrim) : M Value :=
  try_catch
    (returning
       (axios_post w ("/items/" ++ toString itemId ++ "/description")%string
          (JObject [("plain_text", JPrim description)])))
    (catch_block true).

Definition pauseItem (w : World) (itemId : JsPrim) : M Value :=
  try_catch
    (returning
       (axios_put w ("/items/" ++ toString itemId)%string
          (JObject [("status", JPrim (JStr "paused"))])))
    (catch_block true).

Definition activateItem (w : World) (itemId : JsPrim) : M Value :=
  try_catch
    (returning
       (axios_put w ("/items/" ++ toString itemId)%string
          (JObject [("status", JPrim (JStr "active"))])))
    (catch_block true).

Definition changeItemStock (w : World) (itemId newStock : JsPrim) : M Value :=
  try_catch
    (returning
       (axios_put w ("/items/" ++ toString itemId)%string
          (JObject [("available_quantity", JPrim newStock)])))
    (catch_block true).

Definition getItems (w : World) : M Value :=
  sellerId <- get_sellerId ;;
  try_catch
    (returning
       (axios_get w ("/users/" ++ toString sellerId ++ "/items/search")%string []))
    (catch_block true).

(** [getItem] has a [catch] block of its own: it returns [error.response]
    whatever the error is. *)
Definition getItem (w : World) (itemId : JsPrim) (attrs : option (list string)) : M Value :=
  let params := URLSearchParams.empty in
  let params :=
    match attrs with
    | Some a => URLSearchParams.append "attributes" (String.concat "," a) params
    | None => params
    end in
  try_catch
    (returning (axios_get w ("/items/" ++ toString itemId)%string params))
    (fun error => ret (error_response error)).

Definition getUserInfo (w : World) (buyerId : JsPrim) : M Value :=
  try_catch
    (returning (axios_get w ("/users/" ++ toString buyerId)%string []))
    (catch_block true).

Definition getOrders (w : World) (filters : option string) : M Value :=
  sellerId <- get_sellerId ;;
  let url :=
    match filters with
    | Some "recent" =>
        ("/orders/search/recent?seller=" ++ toString sellerId ++ "&sort=date_desc")%string
    | Some "pending" =>
        ("/orders/search/pending?seller=" ++ toString sellerId ++ "&sort=date_desc")%string
    | Some "archived" =>
        ("/orders/search/archived?seller=" ++ toString sellerId ++ "&sort=date_desc")%string
    | _ => ("/orders/search?seller=" ++ toString sellerId ++ "&sort=date_desc")%string
    end in
  try_catch (returning (axios_get w url [])) (catch_block true).

Definition getOrderInfo (w : World) (orderId : JsPrim) : M Value :=
  try_catch
    (returning (axios_get w ("/orders/" ++ toString orderId)%string []))
    (catch_block true).

Definition getOrderMessages (w : World) (orderId : JsPrim) : M Value :=
  sellerId <- get_sellerId ;;
  try_catch
    (returning
       (axios_get w
          ("/messages/packs/" ++ toString orderId ++ "/sellers/" ++ toString sellerId
             ++ "?mark_as_read=false?tag=post_sale")%string []))
    (catch_block true).

Module MeliSendMessageOptions.
Record t := mk {
  msgGroupId : JsPrim;
  buyerId : JsPrim;
  message : JsPrim
}.
End MeliSendMessageOptions.

Definition sendMessage (w : World) (options : MeliSendMessageOptions.t) : M Value :=
  sellerId <- get_sellerId ;;
  try_catch
    (returning
       (axios_post w
          ("/messages/packs/" ++ toString (MeliSendMessageOptions.msgGroupId options)
             ++ "/sellers/" ++ toString sellerId ++ "?tag=post_sale")%string
          (JObject
             [("from", JObject [("user_id", JPrim sellerId)]);
              ("to", JObject [("user_id", JPrim (MeliSendMessageOptions.buyerId options))]);
              ("text", JPrim (MeliSendMessageOptions.message options))])))
    (catch_block true).

Definition getResource (w : World) (resource : JsPrim) : M Value :=
  try_catch (returning (axios_get w (toString resource) [])) (catch_block true).

(** A call of one of the operations, with its arguments. *)
Inductive Operation :=
| GetQuestionsResponseTime
| GetQuestions (filters : option GetQuestionsFilters.t)
| AnswerQuestion (id answer : JsPrim)
| DeleteQuestion (questionId : JsPrim)
| SearchForItems (searchQuery : JsPrim)
| PublishItem (itemInfo : Json)
| AddDescription (itemId description : JsPrim)
| PauseItem (itemId : JsPrim)
| ActivateItem (itemId : JsPrim)
| ChangeItemStock (itemId newStock : JsPrim)
| GetItems
| GetItem (itemId : JsPrim) (attrs : option (list string))
| GetUserInfo (buyerId : JsPrim)
| GetOrders (filters : option string)
| GetOrderInfo (orderId : JsPrim)
| GetOrderMessages (orderId : JsPrim)
| SendMessage (options : MeliSendMessageOptions.t)
| GetResource (resource : JsPrim).

Definition invoke (w : World) (op : Operation) : M Value :=
  match op with
  | GetQuestionsResponseTime => getQuestionsResponseTime w
  | GetQuestions filters => getQuestions w filters
  | AnswerQuestion id answer => answerQuestion w id answer
  | DeleteQuestion questionId => deleteQuestion w questionId
  | SearchForItems searchQuery => searchForItems w searchQuery
  | PublishItem itemInfo => publishItem w itemInfo
  | AddDescription itemId description => addDescription w itemId description
  | PauseItem itemId => pauseItem w itemId
  | ActivateItem itemId => activateItem w itemId
  | ChangeItemStock itemId newStock => changeItemStock w itemId newStock
  | GetItems => getItems w
  | GetItem itemId attrs => getItem w itemId attrs
  | GetUserInfo buyerId => getUserInfo w buyerId
  | GetOrders filters => getOrders w filters
  | GetOrderInfo orderId => getOrderInfo w orderId
  | GetOrderMessages orderId => getOrderMessages w orderId
  | SendMessage options => sendMessage w options
  | GetResource resource => getResource w resource
  end.

Definition is_getItem (op : Operation) : bool :=
  match op with
  | GetItem _ _ => true
  | _ => false
  end.

(** ** Reading a log *)

Definition dispatched (l : list Event) : list RequestConfig :=
  flat_map (fun ev => match ev with EvDispatch c => [c] | _ => [] end) l.

Definition refreshes (l : list Event) : list string :=
  flat_map (fun ev => match ev with EvRefresh t => [t] | _ => [] end) l.

(** What [m] adds to the log when run from [st]. *)
Definition produced {A} (m : M A) (st : State) : list Event :=
  skipn (length (log st)) (log (snd (m st))).

(** [error?.response?.status] *)
Definition error_status (e : Error) : option Z :=
  match e with
  | AxiosError _ (Some res) => Some (Response.status res)
  | _ => None
  end.

(** ** What one call of the instance does *)

(** The request as the adapter receives it on the first dispatch. *)
Definition outgoing (w : World) (st : State) (config : RequestConfig) : RequestConfig :=
  set_Authorization ("Bearer " ++ meliAccess (userConfig st))%string
    (set_baseURL (MELI_API_URL w) config).

(** The request as the adapter receives it on the retry that follows a
    refresh which returned [access_token]. *)
Definition retried (w : World) (st : State) (config : RequestConfig)
    (access_token : string) : RequestConfig :=
  set_Authorization ("Bearer " ++ access_token)%string (set_sent true (outgoing w st config)).

Definition refreshing : Event := EvConsole (LogText "refreshing after request error").

(** The log when the refresh exchange is called, and the events up to and
    including the broadcast after a refresh that returned the pair
    [access_token], [refresh_token]. *)
Definition before_refresh (w : World) (st : State) (config : RequestConfig) : list Event :=
  log st ++ [EvDispatch (outgoing w st config); refreshing].

Definition refreshed (st : State) (access_token refresh_token : string) : list Event :=
  [EvRefresh (meliRefresh (userConfig st));
   EvSetAccess access_token;
   EvSetRefresh refresh_token].

Definition before_emit (w : World) (st : State) (config : RequestConfig)
    (access_token refresh_token : string) : list Event :=
  before_refresh w st config ++ refreshed st access_token refresh_token.

Definition tokens_update (access_token refresh_token : string) : Event :=
  EvEmit "meli.tokens.update" (RefreshTokens access_token refresh_token).

Definition with_tokens (st : State) (access_token refresh_token : string) : UserConfig :=
  mkUserConfig access_token refresh_token (meliId (userConfig st)).

(** The state in which the broadcast has been made. *)
Definition after_emit (w : World) (st : State) (config : RequestConfig)
    (access_token refresh_token : string) : State :=
  mkState (with_tokens st access_token refresh_token)
    (before_emit w st config access_token refresh_token
       ++ [tokens_update access_token refresh_token]).

(** The state in which the refresh exchange has been made. *)
Definition after_refresh (w : World) (st : State) (config : RequestConfig) : State :=
  mkState (userConfig st)
    (before_refresh w st config ++ [EvRefresh (meliRefresh (userConfig st))]).

(** The requests that [m] hands to the adapter when run from [st]: there is
    at least one, and [P] holds of each. *)
Definition every_request {A} (m : M A) (st : State) (P : RequestConfig -> Prop) : Prop :=
  dispatched (produced m st) <> [] /\ Forall P (dispatched (produced m st)).

(** The request that [getQuestions] passes to [this.httpInstance.get]. *)
Definition getQuestions_config (sellerId : JsPrim)
    (filters : option GetQuestionsFilters.t) : RequestConfig :=
  mkRequest "" GET (fst (getQuestions_request sellerId filters))
    (snd (getQuestions_request sellerId filters)) None None false.

(** ** Concrete principals, requests and environments *)

Definition st0 : State :=
  mkState (mkUserConfig "stale-access" "refresh-1" (JNum 77)) [].

Definition req0 : RequestConfig :=
  mkRequest "" GET "/users/1" [] None None false.

(** An upstream that accepts the access token [fresh-access] only. *)
Definition upstream (l : list Event) (c : RequestConfig) : TransportReply :=
  match Authorization c with
  | Some h =>
      if (h =? "Bearer fresh-access")%string then Replied 200 "ok"
      else Replied 401 "expired"
  | None => Replied 401 "expired"
  end.

(** The refresh token is still good and the listeners succeed. *)
Definition w_refresh_ok : World :=
  mkWorld "https://api.mercadolibre.com" upstream
    (fun _ _ => inr (RefreshTokens "fresh-access" "refresh-2"))
    (fun _ _ _ => None).

(** The refresh endpoint answers with an error payload. *)
Definition w_refresh_fails : World :=
  mkWorld "https://api.mercadolibre.com" upstream
    (fun _ _ => inr (RefreshFailure "invalid_grant"))
    (fun _ _ _ => None).

(** The refresh token is still good, but a listener of the broadcast fails. *)
Definition w_broadcast_fails : World :=
  mkWorld "https://api.mercadolibre.com" upstream
    (fun _ _ => inr (RefreshTokens "fresh-access" "refresh-2"))
    (fun _ _ _ => Some (OtherError "listener failed")).

(** The upstream refuses every request with 403. *)
Definition w_forbidden : World :=
  mkWorld "https://api.mercadolibre.com" (fun _ _ => Replied 403 "forbidden")
    (fun _ _ => inr (RefreshTokens "fresh-access" "refresh-2"))
    (fun _ _ _ => None).

(** The connection to the upstream is reset. *)
Definition w_offline : World :=
  mkWorld "https://api.mercadolibre.com" (fun _ _ => NetworkFailure "ECONNRESET")
    (fun _ _ => inr (RefreshTokens "fresh-access" "refresh-2"))
    (fun _ _ _ => None).

(** [{questionId: 123, status: 'ANSWERED'}] and [{from: 'A', questionId: 123}] *)
Definition answered_123 : GetQuestionsFilters.t :=
  GetQuestionsFilters.mk None None (Some (JStr "ANSWERED")) None None None (Some (JNum 123)).

Definition from_A_123 : GetQuestionsFilters.t :=
  GetQuestionsFilters.mk (Some (JStr "A")) None None None None None (Some (JNum 123)).

(** [{from: 'A', item: 'B'}] and [{from: 'A'}] *)
Definition from_A_item_B : GetQuestionsFilters.t :=
  GetQuestionsFilters.mk (Some (JStr "A")) (Some (JStr "B")) None None None None None.

Definition from_A : GetQuestionsFilters.t :=
  GetQuestionsFilters.mk (Some (JStr "A")) None None None None None None.

(** ** Further environments and inputs *)

(** The upstream accepts no token at all. *)
Definition w_always_401 : World :=
  mkWorld "https://api.mercadolibre.com" (fun _ _ => Replied 401 "expired")
    (fun _ _ => inr (RefreshTokens "fresh-access" "refresh-2"))
    (fun _ _ _ => None).

(** The call of the refresh endpoint itself is rejected. *)
Definition w_refresh_down : World :=
  mkWorld "https://api.mercadolibre.com" upstream
    (fun _ _ => inl (OtherError "ECONNREFUSED"))
    (fun _ _ _ => None).

(** The upstream accepts every request. *)
Definition w_ok : World :=
  mkWorld "https://api.mercadolibre.com" (fun _ _ => Replied 200 "ok")
    (fun _ _ => inr (RefreshTokens "fresh-access" "refresh-2"))
    (fun _ _ _ => None).

(** The console lines and the broadcasts of a log. *)
Definition consoles (l : list Event) : list ConsoleLine :=
  flat_map (fun ev => match ev with EvConsole line => [line] | _ => [] end) l.

Definition broadcasts (l : list Event) : list (string * RefreshData) :=
  flat_map (fun ev => match ev with EvEmit name d => [(name, d)] | _ => [] end) l.

(** ** The orders controller *)

(** A plain JavaScript object: its own properties, in order. *)
Module JsObject.

Definition t (V : Type) : Type := list (string * V).

Fixpoint get {V} (key : string) (o : t V) : option V :=
  match o with
  | [] => None
  | (k, v) :: rest => if (k =? key)%string then Some v else get key rest
  end.

(** [o[key] = value]: an own property keeps its place and takes the value, a
    new one goes last. *)
Fixpoint set {V} (key : string) (value : V) (o : t V) : t V :=
  match o with
  | [] => [(key, value)]
  | (k, v) :: rest =>
      if (k =? key)%string then (k, value) :: rest else (k, v) :: set key value rest
  end.

Definition keys {V} (o : t V) : list string := map fst o.

End JsObject.

(** [OrdersService], of which the controller uses five methods. *)
Class OrdersService (V R : Type) := {
  service_create : JsObject.t V -> R;
  service_find : R;
  service_findOne : string -> R;
  service_update : string -> JsObject.t V -> R;
  service_remove : string -> R
}.

Module OrdersController.
Section Controller.

Context {V R : Type} {ordersService : OrdersService V R}.

(** [create(createOrderDto, user)] passes [{ ...createOrderDto, user }]. *)
Definition create (createOrderDto : JsObject.t V) (user : V) : R :=
  service_create (JsObject.set "user" user createOrderDto).

Definition findAll : R := service_find.

Definition findOne (id : string) : R := service_findOne id.

Definition update (id : string) (updateOrderDto : JsObject.t V) : R :=
  service_update id updateOrderDto.

Definition remove (id : string) : R := service_remove id.

End Controller.
End OrdersController.

(** The states in which a call that started in [st] can end: after its one
    dispatch, after a refresh exchange that gave no tokens, after a broadcast
    that was rejected, after the retry. *)
Inductive Ending (w : World) (config : RequestConfig) (st : State) : State -> Prop :=
| EndDispatched :
    Ending w config st (record (EvDispatch (outgoing w st config)) st)
| EndRefreshFailed :
    Ending w config st (after_refresh w st config)
| EndBroadcastFailed (a r : string) :
    refreshAccessToken w (before_refresh w st config) (meliRefresh (userConfig st))
      = inr (RefreshTokens a r) ->
    Ending w config st (after_emit w st config a r)
| EndRetried (a r : string) :
    refreshAccessToken w (before_refresh w st config) (meliRefresh (userConfig st))
      = inr (RefreshTokens a r) ->
    Ending w config st
      (record (EvDispatch (retried w st config a)) (after_emit w st config a r)).

(** * Properties *)

Lemma httpInstance_unfold (n : nat) (w : World) (config : RequestConfig) (st : State) :
  httpInstance (S n) w config st =
  try_catch (dispatchRequest w (outgoing w st config))
    (responseRejected (httpInstance n w) w) st.
Proof. reflexivity. Qed.

Lemma settle_not_OutOfFuel (c : RequestConfig) (reply : TransportReply) :
  settle c reply <> OutOfFuel.
Proof.
  destruct reply as [s d|code]; simpl; [destruct (validateStatus s)|]; discriminate.
Qed.

Lemma settle_rejected (c : RequestConfig) (reply : TransportReply) (e : Error) :
  settle c reply = Rejected e ->
  exists res, e = AxiosError c res /\
    match res with
    | Some r => Response.config r = c /\ validateStatus (Response.status r) = false
    | None => True
    end.
Proof.
  destruct reply as [s d|code]; simpl.
  - destruct (validateStatus s) eqn:V; intros H; inversion H; subst.
    eexists; split; [reflexivity|]. simpl. auto.
  - intros H; inversion H; subst. exists None. auto.
Qed.

(** A dispatch that the response interceptor lets through: the outcome of
    the adapter is the outcome of the call, and the dispatch is all that
    happened. *)
Lemma httpInstance_passes (n : nat) (w : World) (config : RequestConfig) (st : State) :
  let c := outgoing w st config in
  let out := settle c (adapter w (log st) c) in
  (forall e, out = Rejected e -> error_status e <> Some 401 \/ sent config = true) ->
  httpInstance (S n) w config st = (out, record (EvDispatch c) st).
Proof.
  intros c out H. rewrite httpInstance_unfold.
  unfold try_catch, dispatchRequest. fold c. fold out.
  destruct out as [r|e|] eqn:E; try reflexivity.
  destruct (settle_rejected _ _ _ E) as [res [-> Hres]].
  destruct res as [r|]; [|reflexivity].
  simpl. destruct (H _ eq_refl) as [Hs|Hs].
  - simpl in Hs. unfold includes, errorCodes. simpl.
    destruct (Response.status r =? 401) eqn:Q.
    + apply Z.eqb_eq in Q. congruence.
    + reflexivity.
  - unfold c at 1. simpl. rewrite Hs. rewrite andb_false_r. reflexivity.
Qed.

Lemma record_log (ev : Event) (st : State) : log (record ev st) = log st ++ [ev].
Proof. reflexivity. Qed.

Lemma outgoing_retried (w : World) (st st' : State) (config : RequestConfig)
    (access_token : string) :
  meliAccess (userConfig st') = access_token ->
  outgoing w st' (retried w st config access_token) = retried w st config access_token.
Proof. intros <-. reflexivity. Qed.

(** A first dispatch answered with 401, on a request not yet marked: the
    refresh exchange is made, and what follows depends on its answer and on
    the broadcast. *)
Lemma httpInstance_refreshes (n : nat) (w : World) (config : RequestConfig) (st : State)
    (body : string) :
  sent config = false ->
  adapter w (log st) (outgoing w st config) = Replied 401 body ->
  httpInstance (S n) w config st =
  match refreshAccessToken w (before_refresh w st config) (meliRefresh (userConfig st)) with
  | inl e => (Rejected e, after_refresh w st config)
  | inr (RefreshFailure _) =>
      (Rejected (UnauthorizedException "Please link meli again" LinkMeli),
       after_refresh w st config)
  | inr (RefreshTokens a r) =>
      match emitAsync w (before_emit w st config a r) "meli.tokens.update" (RefreshTokens a r) with
      | Some e => (Rejected e, after_emit w st config a r)
      | None => httpInstance n w (retried w st config a) (after_emit w st config a r)
      end
  end.
Proof.
  intros Hsent H401. rewrite httpInstance_unfold.
  unfold try_catch, dispatchRequest. rewrite H401. simpl.
  rewrite Hsent. simpl.
  unfold bind, console_log, emit_event, get_refreshToken, oauth_refresh. simpl.
  unfold after_emit, before_emit, after_refresh, before_refresh, refreshed,
    tokens_update, refreshing, with_tokens, retried.
  rewrite <- !app_assoc. simpl.
  destruct (refreshAccessToken w _ _) as [e|[a r|reason]]; simpl.
  - unfold record. simpl. rewrite <- !app_assoc. reflexivity.
  - unfold emitter_emitAsync, record. simpl. rewrite <- !app_assoc. simpl.
    destruct (emitAsync w _ _ _) as [e|]; reflexivity.
  - unfold record. simpl. rewrite <- !app_assoc. reflexivity.
Qed.

(** The retry is a dispatch of a request that carries the mark: its outcome
    is the outcome of the call. *)
Lemma httpInstance_retry (n : nat) (w : World) (config : RequestConfig) (st : State)
    (a r : string) :
  let c := retried w st config a in
  let st' := after_emit w st config a r in
  httpInstance (S n) w c st' = (settle c (adapter w (log st') c), record (EvDispatch c) st').
Proof.
  intros c st'.
  assert (E : outgoing w st' c = c) by (apply outgoing_retried; reflexivity).
  rewrite <- E at 2 3 4. apply httpInstance_passes.
  intros e _. right. reflexivity.
Qed.

Lemma settle_error_status (c : RequestConfig) (reply : TransportReply) (e : Error) :
  settle c reply = Rejected e ->
  error_status e = match reply with
                   | Replied s _ => Some s
                   | NetworkFailure _ => None
                   end.
Proof.
  destruct reply as [s d|code]; simpl.
  - destruct (validateStatus s); intros H; inversion H; reflexivity.
  - intros H; inversion H; reflexivity.
Qed.

(** A reply other than 401, or one to a request that carries the mark, is
    let through. *)
Lemma httpInstance_other (n : nat) (w : World) (config : RequestConfig) (st : State) :
  let c := outgoing w st config in
  (forall body, adapter w (log st) c <> Replied 401 body) \/ sent config = true ->
  httpInstance (S n) w config st = (settle c (adapter w (log st) c), record (EvDispatch c) st).
Proof.
  intros c H. apply httpInstance_passes. fold c.
  intros e He. destruct H as [H|H]; [left|right; exact H].
  rewrite (settle_error_status _ _ _ He).
  destruct (adapter w (log st) c) as [s d|code]; [|discriminate].
  intros Q. inversion Q; subst. exact (H d eq_refl).
Qed.

Lemma reply_401_dec (reply : TransportReply) :
  {body | reply = Replied 401 body} + {forall body, reply <> Replied 401 body}.
Proof.
  destruct reply as [s d|code].
  - destruct (Z.eq_dec s 401) as [->|N].
    + left. exists d. reflexivity.
    + right. intros body Q. inversion Q. contradiction.
  - right. intros body Q. discriminate.
Qed.

(** More fuel than [retry_depth] changes nothing. *)
Lemma httpInstance_fuel (n : nat) (w : World) (config : RequestConfig) (st : State) :
  httpInstance (S (S n)) w config st = httpInstance retry_depth w config st.
Proof.
  unfold retry_depth.
  destruct (sent config) eqn:Hs.
  - rewrite !httpInstance_other by (right; exact Hs). reflexivity.
  - destruct (reply_401_dec (adapter w (log st) (outgoing w st config))) as [[body H]|H].
    + rewrite !(httpInstance_refreshes _ _ _ _ _ Hs H).
      destruct (refreshAccessToken w _ _) as [e|[a r|reason]]; try reflexivity.
      destruct (emitAsync w _ _ _) as [e|]; [reflexivity|].
      rewrite !httpInstance_retry. reflexivity.
    + rewrite !httpInstance_other by (left; exact H). reflexivity.
Qed.

(** With that much fuel the call completes: it resolves or it rejects. *)
Lemma httpInstance_completes (fuel : nat) (w : World) (config : RequestConfig) (st : State) :
  (2 <= fuel)%nat -> fst (httpInstance fuel w config st) <> OutOfFuel.
Proof.
  intros Hf. destruct fuel as [|[|n]]; try lia. clear Hf.
  destruct (sent config) eqn:Hs.
  - rewrite httpInstance_other by (right; exact Hs). apply settle_not_OutOfFuel.
  - destruct (reply_401_dec (adapter w (log st) (outgoing w st config))) as [[body H]|H].
    + rewrite (httpInstance_refreshes _ _ _ _ _ Hs H).
      destruct (refreshAccessToken w _ _) as [e|[a r|reason]]; try discriminate.
      destruct (emitAsync w _ _ _) as [e|]; [discriminate|].
      rewrite httpInstance_retry. apply settle_not_OutOfFuel.
    + rewrite httpInstance_other by (left; exact H). apply settle_not_OutOfFuel.
Qed.

(** *** Logs *)

Lemma skipn_length_app {A} (l new : list A) : skipn (length l) (l ++ new) = new.
Proof. induction l as [|x l IH]; simpl; [reflexivity | exact IH]. Qed.

Lemma log_after_dispatch (c : RequestConfig) (st : State) :
  log (record (EvDispatch c) st) = log st ++ [EvDispatch c].
Proof. reflexivity. Qed.

Lemma log_after_refresh (w : World) (st : State) (config : RequestConfig) :
  log (after_refresh w st config) =
  log st ++ [EvDispatch (outgoing w st config); refreshing;
             EvRefresh (meliRefresh (userConfig st))].
Proof.
  unfold after_refresh, before_refresh. simpl. rewrite <- app_assoc. reflexivity.
Qed.

Lemma log_after_emit (w : World) (st : State) (config : RequestConfig) (a r : string) :
  log (after_emit w st config a r) =
  log st ++ [EvDispatch (outgoing w st config); refreshing;
             EvRefresh (meliRefresh (userConfig st)); EvSetAccess a; EvSetRefresh r;
             tokens_update a r].
Proof.
  unfold after_emit, before_emit, before_refresh, refreshed. simpl.
  rewrite <- !app_assoc. reflexivity.
Qed.

Lemma log_after_retry (w : World) (st : State) (config : RequestConfig) (a r : string) :
  log (record (EvDispatch (retried w st config a)) (after_emit w st config a r)) =
  log st ++ [EvDispatch (outgoing w st config); refreshing;
             EvRefresh (meliRefresh (userConfig st)); EvSetAccess a; EvSetRefresh r;
             tokens_update a r; EvDispatch (retried w st config a)].
Proof.
  rewrite record_log, log_after_emit, <- app_assoc. reflexivity.
Qed.

Lemma dispatched_console (l : list Event) (line : ConsoleLine) :
  dispatched (l ++ [EvConsole line]) = dispatched l.
Proof.
  unfold dispatched. rewrite flat_map_app. simpl. apply app_nil_r.
Qed.

Create Rewrite HintDb logs.
#[export] Hint Rewrite log_after_retry log_after_emit log_after_refresh
  log_after_dispatch @skipn_length_app : logs.
#[export] Hint Rewrite <- @app_assoc : logs.

(** Replaces a run by what is known of it and reads its part of the log. *)
Ltac read_log :=
  unfold produced;
  repeat match goal with
         | E : httpInstance _ _ _ _ = _ |- _ => rewrite E; clear E
         end;
  cbn [snd fst];
  autorewrite with logs.

(** *** The refresh path of the response interceptor *)

Section RefreshPath.

(** A request that does not carry the mark, and a first dispatch that the
    upstream answers with 401. *)
Variables (w : World) (config : RequestConfig) (st : State) (body : string).
Hypothesis Hsent : sent config = false.
Hypothesis H401 : adapter w (log st) (outgoing w st config) = Replied 401 body.

(** The four ways in which the path ends. *)
Lemma refresh_rejected (n : nat) (e : Error) :
  refreshAccessToken w (before_refresh w st config) (meliRefresh (userConfig st)) = inl e ->
  httpInstance (S n) w config st = (Rejected e, after_refresh w st config).
Proof.
  intros Hr. rewrite (httpInstance_refreshes _ _ _ _ _ Hsent H401), Hr. reflexivity.
Qed.

Lemma refresh_failed (n : nat) (reason : string) :
  refreshAccessToken w (before_refresh w st config) (meliRefresh (userConfig st))
    = inr (RefreshFailure reason) ->
  httpInstance (S n) w config st =
  (Rejected (UnauthorizedException "Please link meli again" LinkMeli),
   after_refresh w st config).
Proof.
  intros Hr. rewrite (httpInstance_refreshes _ _ _ _ _ Hsent H401), Hr. reflexivity.
Qed.

Lemma broadcast_rejected (n : nat) (a r : string) (e : Error) :
  refreshAccessToken w (before_refresh w st config) (meliRefresh (userConfig st))
    = inr (RefreshTokens a r) ->
  emitAsync w (before_emit w st config a r) "meli.tokens.update" (RefreshTokens a r) = Some e ->
  httpInstance (S n) w config st = (Rejected e, after_emit w st config a r).
Proof.
  intros Hr He.
  rewrite (httpInstance_refreshes _ _ _ _ _ Hsent H401), Hr, He. reflexivity.
Qed.

Lemma refreshed_and_retried (n : nat) (a r : string) :
  refreshAccessToken w (before_refresh w st config) (meliRefresh (userConfig st))
    = inr (RefreshTokens a r) ->
  emitAsync w (before_emit w st config a r) "meli.tokens.update" (RefreshTokens a r) = None ->
  httpInstance (S (S n)) w config st =
  (settle (retried w st config a)
     (adapter w (log (after_emit w st config a r)) (retried w st config a)),
   record (EvDispatch (retried w st config a)) (after_emit w st config a r)).
Proof.
  intros Hr He.
  rewrite (httpInstance_refreshes _ _ _ _ _ Hsent H401), Hr, He.
  apply httpInstance_retry.
Qed.

(** C3. When the first dispatch of a request that is not yet marked is
    answered with 401 and the refresh exchange returns a failure, the call is
    rejected with the [UnauthorizedException] whose message asks to link the
    integration again and whose action is [LinkMeli]; the stored tokens are
    what they were, and the only request dispatched is the first one. *)
Theorem refresh_failure_asks_to_link_again (fuel : nat) (reason : string) :
  (2 <= fuel)%nat ->
  refreshAccessToken w (before_refresh w st config) (meliRefresh (userConfig st))
    = inr (RefreshFailure reason) ->
  fst (httpInstance fuel w config st)
    = Rejected (UnauthorizedException "Please link meli again" LinkMeli) /\
  userConfig (snd (httpInstance fuel w config st)) = userConfig st /\
  dispatched (produced (httpInstance fuel w config) st) = [outgoing w st config].
Proof.
  intros Hf Hr. destruct fuel as [|n]; [lia|]. clear Hf.
  pose proof (refresh_failed n reason Hr) as E.
  split; [rewrite E; reflexivity|].
  split; [rewrite E; reflexivity|].
  read_log. reflexivity.
Qed.

(** C4. When the refresh exchange that follows a 401 returns a pair of
    tokens, both stored tokens are set to the returned values, and the log
    shows the two writes and the broadcast after the exchange; whatever is
    dispatched after that carries [Bearer] and the new access token in its
    Authorization header and is otherwise the original request, marked. When
    the broadcast completes, that is exactly one request. *)
Theorem refresh_success_updates_tokens (fuel : nat) (a r : string) :
  (2 <= fuel)%nat ->
  refreshAccessToken w (before_refresh w st config) (meliRefresh (userConfig st))
    = inr (RefreshTokens a r) ->
  let st' := snd (httpInstance fuel w config st) in
  meliAccess (userConfig st') = a /\
  meliRefresh (userConfig st') = r /\
  exists rest,
    produced (httpInstance fuel w config) st =
      [EvDispatch (outgoing w st config); refreshing;
       EvRefresh (meliRefresh (userConfig st)); EvSetAccess a; EvSetRefresh r;
       tokens_update a r] ++ rest /\
    Forall (fun c => Authorization c = Some ("Bearer " ++ a)%string /\
                     sent c = true /\
                     (method c, url c, params c, data c)
                       = (method config, url config, params config, data config))
      (dispatched rest) /\
    (emitAsync w (before_emit w st config a r) "meli.tokens.update" (RefreshTokens a r) = None ->
     rest = [EvDispatch (retried w st config a)]).
Proof.
  intros Hf Hr st'. subst st'. destruct fuel as [|[|n]]; try lia. clear Hf.
  destruct (emitAsync w (before_emit w st config a r) "meli.tokens.update" (RefreshTokens a r))
    as [e|] eqn:He.
  - pose proof (broadcast_rejected (S n) a r e Hr He) as E.
    split; [rewrite E; reflexivity|]. split; [rewrite E; reflexivity|].
    exists []. split; [read_log; reflexivity|].
    split; [constructor | discriminate].
  - pose proof (refreshed_and_retried n a r Hr He) as E.
    split; [rewrite E; reflexivity|]. split; [rewrite E; reflexivity|].
    exists [EvDispatch (retried w st config a)]. split; [read_log; reflexivity|].
    split; [|reflexivity].
    repeat constructor.
Qed.

(** C9, as the code has it. After a refresh exchange that returned tokens the
    broadcast is awaited: when it completes, the request is dispatched again,
    after the broadcast, and the outcome of that dispatch, success or failure,
    is the outcome of the call; when it is rejected, the call is rejected with
    the error of the broadcast and nothing is dispatched after it. *)
Theorem broadcast_awaited_before_retry (fuel : nat) (a r : string) :
  (2 <= fuel)%nat ->
  refreshAccessToken w (before_refresh w st config) (meliRefresh (userConfig st))
    = inr (RefreshTokens a r) ->
  let emitted := before_emit w st config a r ++ [tokens_update a r] in
  let again := retried w st config a in
  match emitAsync w (before_emit w st config a r) "meli.tokens.update" (RefreshTokens a r) with
  | None =>
      fst (httpInstance fuel w config st) = settle again (adapter w emitted again) /\
      log (snd (httpInstance fuel w config st)) = emitted ++ [EvDispatch again]
  | Some e =>
      fst (httpInstance fuel w config st) = Rejected e /\
      log (snd (httpInstance fuel w config st)) = emitted
  end.
Proof.
  intros Hf Hr emitted again. subst emitted again.
  destruct fuel as [|[|n]]; try lia. clear Hf.
  destruct (emitAsync w (before_emit w st config a r) "meli.tokens.update" (RefreshTokens a r))
    as [e|] eqn:He.
  - rewrite (broadcast_rejected (S n) a r e Hr He). split; reflexivity.
  - rewrite (refreshed_and_retried n a r Hr He). split; reflexivity.
Qed.

End RefreshPath.

Lemma refresh_failure_asks_to_link_again_witness :
  fst (httpInstance 2 w_refresh_fails req0 st0)
    = Rejected (UnauthorizedException "Please link meli again" LinkMeli) /\
  userConfig (snd (httpInstance 2 w_refresh_fails req0 st0)) = userConfig st0 /\
  dispatched (produced (httpInstance 2 w_refresh_fails req0) st0)
    = [outgoing w_refresh_fails st0 req0].
Proof.
  apply (refresh_failure_asks_to_link_again w_refresh_fails req0 st0 "expired"
           eq_refl eq_refl 2 "invalid_grant"); [lia | reflexivity].
Defined.

Lemma refresh_success_updates_tokens_witness :
  meliAccess (userConfig (snd (httpInstance 2 w_refresh_ok req0 st0))) = "fresh-access" /\
  meliRefresh (userConfig (snd (httpInstance 2 w_refresh_ok req0 st0))) = "refresh-2" /\
  exists rest,
    produced (httpInstance 2 w_refresh_ok req0) st0 =
      [EvDispatch (outgoing w_refresh_ok st0 req0); refreshing;
       EvRefresh "refresh-1"; EvSetAccess "fresh-access"; EvSetRefresh "refresh-2";
       tokens_update "fresh-access" "refresh-2"] ++ rest /\
    Forall (fun c => Authorization c = Some "Bearer fresh-access" /\
                     sent c = true /\
                     (method c, url c, params c, data c) = (GET, "/users/1", [], None))
      (dispatched rest) /\
    (emitAsync w_refresh_ok
         (before_emit w_refresh_ok st0 req0 "fresh-access" "refresh-2")
         "meli.tokens.update" (RefreshTokens "fresh-access" "refresh-2") = None ->
     rest = [EvDispatch (retried w_refresh_ok st0 req0 "fresh-access")]).
Proof.
  apply (refresh_success_updates_tokens w_refresh_ok req0 st0 "expired"
           eq_refl eq_refl 2 "fresh-access" "refresh-2"); [lia | reflexivity].
Defined.

Lemma broadcast_awaited_before_retry_witness :
  fst (httpInstance 2 w_refresh_ok req0 st0)
    = Resolved (Response.mk 200 "ok" (retried w_refresh_ok st0 req0 "fresh-access")) /\
  log (snd (httpInstance 2 w_refresh_ok req0 st0))
    = (before_emit w_refresh_ok st0 req0 "fresh-access" "refresh-2"
         ++ [tokens_update "fresh-access" "refresh-2"])
      ++ [EvDispatch (retried w_refresh_ok st0 req0 "fresh-access")].
Proof.
  exact (broadcast_awaited_before_retry w_refresh_ok req0 st0 "expired" eq_refl eq_refl
           2 "fresh-access" "refresh-2" ltac:(lia) eq_refl).
Defined.

(** C9 as stated fails: the refresh exchange returns tokens, a listener of
    the broadcast fails, and the call is rejected with the listener's error;
    the request is not dispatched again. *)
Lemma broadcast_failure_stops_retry :
  refreshAccessToken w_broadcast_fails (before_refresh w_broadcast_fails st0 req0) "refresh-1"
    = inr (RefreshTokens "fresh-access" "refresh-2") /\
  emitAsync w_broadcast_fails
      (before_emit w_broadcast_fails st0 req0 "fresh-access" "refresh-2")
      "meli.tokens.update" (RefreshTokens "fresh-access" "refresh-2")
    = Some (OtherError "listener failed") /\
  fst (httpInstance retry_depth w_broadcast_fails req0 st0)
    = Rejected (OtherError "listener failed") /\
  dispatched (produced (httpInstance retry_depth w_broadcast_fails req0) st0)
    = [outgoing w_broadcast_fails st0 req0].
Proof. repeat split. Qed.

(** *** What a call dispatches and how often it refreshes *)

(** A run that the interceptor lets through dispatches once and makes no
    refresh exchange. *)
Lemma run_without_refresh (n : nat) (w : World) (config : RequestConfig) (st : State) :
  (forall body, adapter w (log st) (outgoing w st config) <> Replied 401 body)
    \/ sent config = true ->
  let new := produced (httpInstance (S n) w config) st in
  refreshes new = [] /\ dispatched new = [outgoing w st config].
Proof.
  intros H new. subst new.
  pose proof (httpInstance_other n w config st H) as E.
  split; read_log; reflexivity.
Qed.

(** A run on the refresh path makes one refresh exchange, and dispatches a
    second time exactly when the exchange returns tokens and the broadcast
    completes. *)
Lemma run_with_refresh (n : nat) (w : World) (config : RequestConfig) (st : State)
    (body : string) :
  sent config = false ->
  adapter w (log st) (outgoing w st config) = Replied 401 body ->
  let new := produced (httpInstance (S (S n)) w config) st in
  refreshes new = [meliRefresh (userConfig st)] /\
  match refreshAccessToken w (before_refresh w st config) (meliRefresh (userConfig st)) with
  | inr (RefreshTokens a r) =>
      match emitAsync w (before_emit w st config a r) "meli.tokens.update"
              (RefreshTokens a r) with
      | None => dispatched new = [outgoing w st config; retried w st config a]
      | Some _ => dispatched new = [outgoing w st config]
      end
  | _ => dispatched new = [outgoing w st config]
  end.
Proof.
  intros Hs H new. subst new.
  destruct (refreshAccessToken w (before_refresh w st config) (meliRefresh (userConfig st)))
    as [e|[a r|reason]] eqn:Hr.
  - pose proof (refresh_rejected w config st body Hs H (S n) e Hr) as E.
    split; read_log; reflexivity.
  - destruct (emitAsync w (before_emit w st config a r) "meli.tokens.update"
                (RefreshTokens a r)) as [e|] eqn:He.
    + pose proof (broadcast_rejected w config st body Hs H (S n) a r e Hr He) as E.
      split; read_log; reflexivity.
    + pose proof (refreshed_and_retried w config st body Hs H n a r Hr He) as E.
      split; read_log; reflexivity.
  - pose proof (refresh_failed w config st body Hs H (S n) reason Hr) as E.
    split; read_log; reflexivity.
Qed.

(** Which of the two a run is. *)
Lemma run_cases (w : World) (config : RequestConfig) (st : State) :
  {body | sent config = false /\
          adapter w (log st) (outgoing w st config) = Replied 401 body} +
  {(forall body, adapter w (log st) (outgoing w st config) <> Replied 401 body)
     \/ sent config = true}.
Proof.
  destruct (sent config).
  - right. right. reflexivity.
  - destruct (reply_401_dec (adapter w (log st) (outgoing w st config))) as [[body H]|H].
    + left. exists body. split; [reflexivity | exact H].
    + right. left. exact H.
Qed.

Lemma httpInstance_dispatched (fuel : nat) (w : World) (config : RequestConfig) (st : State) :
  (2 <= fuel)%nat ->
  dispatched (produced (httpInstance fuel w config) st) = [outgoing w st config] \/
  exists a,
    dispatched (produced (httpInstance fuel w config) st)
      = [outgoing w st config; retried w st config a].
Proof.
  intros Hf. destruct fuel as [|[|n]]; try lia. clear Hf.
  destruct (run_cases w config st) as [[body [Hs H]]|H].
  - destruct (run_with_refresh n w config st body Hs H) as [_ Hd].
    destruct (refreshAccessToken w _ _) as [e|[a r|reason]]; try (left; exact Hd).
    destruct (emitAsync w _ _ _) as [e|]; [left; exact Hd|].
    right. exists a. exact Hd.
  - left. apply (run_without_refresh (S n) w config st H).
Qed.

(** C1, as the code has it. Every call makes at most one refresh exchange.
    When the first dispatch of a request that is not yet marked is answered
    with 401, exactly one refresh exchange is made, with the stored refresh
    token, and the request is dispatched again at most once: once when the
    exchange returns tokens and the broadcast completes, and not at all when
    the exchange fails or the broadcast is rejected. *)
Theorem one_refresh_at_most_one_retry (fuel : nat) (w : World) (config : RequestConfig)
    (st : State) :
  (2 <= fuel)%nat ->
  let new := produced (httpInstance fuel w config) st in
  (length (refreshes new) <= 1)%nat /\
  forall body,
    sent config = false ->
    adapter w (log st) (outgoing w st config) = Replied 401 body ->
    refreshes new = [meliRefresh (userConfig st)] /\
    match refreshAccessToken w (before_refresh w st config) (meliRefresh (userConfig st)) with
    | inr (RefreshTokens a r) =>
        match emitAsync w (before_emit w st config a r) "meli.tokens.update"
                (RefreshTokens a r) with
        | None => dispatched new = [outgoing w st config; retried w st config a]
        | Some _ => dispatched new = [outgoing w st config]
        end
    | _ => dispatched new = [outgoing w st config]
    end.
Proof.
  intros Hf new. subst new. destruct fuel as [|[|n]]; try lia. clear Hf.
  split.
  - destruct (run_cases w config st) as [[body [Hs H]]|H].
    + destruct (run_with_refresh n w config st body Hs H) as [-> _]. simpl. lia.
    + destruct (run_without_refresh (S n) w config st H) as [-> _]. simpl. lia.
  - intros body Hs H. exact (run_with_refresh n w config st body Hs H).
Qed.

Lemma one_refresh_at_most_one_retry_witness :
  refreshes (produced (httpInstance 2 w_refresh_ok req0) st0) = ["refresh-1"] /\
  dispatched (produced (httpInstance 2 w_refresh_ok req0) st0)
    = [outgoing w_refresh_ok st0 req0; retried w_refresh_ok st0 req0 "fresh-access"].
Proof.
  destruct (one_refresh_at_most_one_retry 2 w_refresh_ok req0 st0) as [_ H]; [lia|].
  exact (H "expired" eq_refl eq_refl).
Defined.

(** C1 as stated fails. A request that is not marked and whose first dispatch
    is answered with 401 makes its one refresh exchange; when the exchange
    fails, and also when it succeeds and the broadcast is rejected, the
    request is not dispatched a second time. *)
Lemma fresh_401_without_retry :
  sent req0 = false /\
  adapter w_refresh_fails (log st0) (outgoing w_refresh_fails st0 req0)
    = Replied 401 "expired" /\
  refreshes (produced (httpInstance retry_depth w_refresh_fails req0) st0) = ["refresh-1"] /\
  dispatched (produced (httpInstance retry_depth w_refresh_fails req0) st0)
    = [outgoing w_refresh_fails st0 req0] /\
  adapter w_broadcast_fails (log st0) (outgoing w_broadcast_fails st0 req0)
    = Replied 401 "expired" /\
  refreshes (produced (httpInstance retry_depth w_broadcast_fails req0) st0) = ["refresh-1"] /\
  dispatched (produced (httpInstance retry_depth w_broadcast_fails req0) st0)
    = [outgoing w_broadcast_fails st0 req0].
Proof. repeat split. Qed.

(** C2. When a dispatch fails and the error's status is not 401 (an error
    without response has no status), or the request already carries the mark,
    the call is rejected with that very error; the dispatch is the only thing
    that happened: no refresh exchange, no second dispatch, and the stored
    tokens are untouched. *)
Theorem error_propagates_unchanged (fuel : nat) (w : World) (config : RequestConfig)
    (st : State) (e : Error) :
  (2 <= fuel)%nat ->
  settle (outgoing w st config) (adapter w (log st) (outgoing w st config)) = Rejected e ->
  error_status e <> Some 401 \/ sent config = true ->
  httpInstance fuel w config st = (Rejected e, record (EvDispatch (outgoing w st config)) st) /\
  refreshes (produced (httpInstance fuel w config) st) = [] /\
  dispatched (produced (httpInstance fuel w config) st) = [outgoing w st config].
Proof.
  intros Hf He Hc. destruct fuel as [|n]; [lia|]. clear Hf.
  assert (E : httpInstance (S n) w config st =
              (Rejected e, record (EvDispatch (outgoing w st config)) st)).
  { rewrite <- He. apply httpInstance_passes.
    intros e' He'. rewrite He in He'. inversion He'; subst. exact Hc. }
  split; [exact E|].
  split; read_log; reflexivity.
Qed.

Lemma error_propagates_unchanged_witness :
  httpInstance 2 w_forbidden req0 st0 =
  (Rejected (AxiosError (outgoing w_forbidden st0 req0)
               (Some (Response.mk 403 "forbidden" (outgoing w_forbidden st0 req0)))),
   record (EvDispatch (outgoing w_forbidden st0 req0)) st0) /\
  refreshes (produced (httpInstance 2 w_forbidden req0) st0) = [] /\
  dispatched (produced (httpInstance 2 w_forbidden req0) st0) = [outgoing w_forbidden st0 req0].
Proof.
  apply (error_propagates_unchanged 2 w_forbidden req0 st0).
  - lia.
  - reflexivity.
  - left. simpl. discriminate.
Defined.

(** Every request of a call has the method, path, query and body that the
    call was given. *)
Lemma httpInstance_requests (w : World) (config : RequestConfig) (st : State) :
  every_request (httpInstance retry_depth w config) st
    (fun c => (method c, url c, params c, data c)
              = (method config, url config, params config, data config)).
Proof.
  unfold every_request.
  destruct (httpInstance_dispatched retry_depth w config st (le_n 2)) as [E|[a E]];
    rewrite E; split; try discriminate; repeat constructor.
Qed.

(** The [catch] block of [getQuestions] does not log: the operation leaves
    the state that its call of the instance leaves. *)
Lemma getQuestions_state (w : World) (filters : option GetQuestionsFilters.t) (st : State) :
  snd (getQuestions w filters st) =
  snd (httpInstance retry_depth w (getQuestions_config (meliId (userConfig st)) filters) st).
Proof.
  unfold getQuestions, getQuestions_config, bind, get_sellerId.
  destruct (getQuestions_request (meliId (userConfig st)) filters) as [u p].
  cbn [fst snd]. unfold try_catch, returning, bind, axios_get, axios.
  destruct (httpInstance retry_depth w _ st) as [[res|e|] st']; try reflexivity.
  unfold catch_block, bind, ret, throw. destruct (isAxiosError e); reflexivity.
Qed.

Lemma getQuestions_requests (w : World) (filters : option GetQuestionsFilters.t) (st : State) :
  every_request (getQuestions w filters) st
    (fun c => (url c, params c) = getQuestions_request (meliId (userConfig st)) filters).
Proof.
  destruct (httpInstance_requests w (getQuestions_config (meliId (userConfig st)) filters) st)
    as [Hne Hall].
  unfold every_request, produced in *. rewrite getQuestions_state.
  split; [exact Hne|].
  eapply Forall_impl; [|exact Hall].
  intros c Hc. simpl in Hc. injection Hc as _ Hu Hp _.
  rewrite Hu, Hp. symmetry. apply surjective_pairing.
Qed.

Lemma every_request_impl {A} (m : M A) (st : State) (P Q : RequestConfig -> Prop) :
  (forall c, P c -> Q c) -> every_request m st P -> every_request m st Q.
Proof.
  intros H [Hne Hall]. split; [exact Hne|]. eapply Forall_impl; eauto.
Qed.

(** *** The query of getQuestions *)

Ltac questions_cases :=
  unfold getQuestions_request, chain; cbn [GetQuestionsFilters.from GetQuestionsFilters.item
    GetQuestionsFilters.status GetQuestionsFilters.sort GetQuestionsFilters.limit
    GetQuestionsFilters.offset GetQuestionsFilters.questionId];
  repeat match goal with
         | |- context [truthy_opt ?x] =>
             let T := fresh "T" in destruct (truthy_opt x) eqn:T
         | |- context [match ?s with Some _ => _ | None => _ end] =>
             is_var s; destruct s
         end;
  cbn [andb fst snd].

Lemma request_api_version (sellerId : JsPrim) (filters : option GetQuestionsFilters.t) :
  URLSearchParams.getAll "api_version" (snd (getQuestions_request sellerId filters)) = ["4"].
Proof.
  destruct filters as [[f i s so l o q]|]; questions_cases; reflexivity.
Qed.

Lemma request_defaults (sellerId : JsPrim) (filters : option GetQuestionsFilters.t) :
  filters = None \/ filters = Some GetQuestionsFilters.none ->
  getQuestions_request sellerId filters =
  ("/questions/search",
   [("seller_id", toString sellerId); ("status", "UNANSWERED"); ("limit", "25");
    ("offset", "0"); ("api_version", "4")]).
Proof. intros [->| ->]; reflexivity. Qed.

Lemma request_from_item (sellerId : JsPrim) (filters : GetQuestionsFilters.t) :
  truthy_opt (from filters) = true ->
  truthy_opt (item filters) = true ->
  let query := snd (getQuestions_request sellerId (Some filters)) in
  URLSearchParams.getAll "from" query = [stringify (from filters)] /\
  URLSearchParams.getAll "item" query = [stringify (item filters)] /\
  URLSearchParams.has "seller_id" query = false.
Proof.
  destruct filters as [f i s so l o q]. cbn [from item]. intros Hf Hi.
  unfold getQuestions_request, chain. cbn [from item]. rewrite Hf, Hi.
  questions_cases; repeat split.
Qed.

Lemma request_seller (sellerId : JsPrim) (filters : GetQuestionsFilters.t) :
  truthy_opt (item filters) = false ->
  let query := snd (getQuestions_request sellerId (Some filters)) in
  URLSearchParams.has "from" query = false /\
  URLSearchParams.has "item" query = false /\
  URLSearchParams.getAll "seller_id" query = [toString sellerId].
Proof.
  destruct filters as [f i s so l o q]. cbn [item]. intros Hi.
  unfold getQuestions_request, chain. cbn [from item]. rewrite Hi, andb_false_r.
  questions_cases; repeat split.
Qed.

Lemma request_path (sellerId : JsPrim) (filters : GetQuestionsFilters.t) :
  fst (getQuestions_request sellerId (Some filters)) =
  if truthy_opt (questionId filters)
  then ("/questions/" ++ stringify (questionId filters))%string
  else "/questions/search".
Proof.
  destruct filters as [f i s so l o q]. cbn [questionId].
  questions_cases; reflexivity.
Qed.

(** [delete('*')] finds no pair to remove: no name in the query is [*]. *)
Lemma request_question (sellerId : JsPrim) (filters : GetQuestionsFilters.t) :
  truthy_opt (questionId filters) = true ->
  snd (getQuestions_request sellerId (Some filters)) =
  snd (getQuestions_request sellerId
         (Some (GetQuestionsFilters.mk (from filters) (item filters)
                  (GetQuestionsFilters.status filters) (sort filters) (limit filters)
                  (offset filters) None))).
Proof.
  destruct filters as [f i s so l o q]. cbn [questionId]. intros Hq.
  unfold getQuestions_request, chain.
  cbn [from item sort limit offset questionId GetQuestionsFilters.status].
  rewrite Hq. change (truthy_opt None) with false.
  destruct (truthy_opt f && truthy_opt i), (truthy_opt s), so; reflexivity.
Qed.

(** C5, at the input of the specification: with
    [{questionId: 123, status: 'ANSWERED'}] every request of [getQuestions]
    goes to [/questions/123], and its query still has the status filter that
    was supplied, next to the seller, the limit and the offset. *)
Theorem questionId_keeps_status_filter (w : World) (st : State) :
  every_request (getQuestions w (Some answered_123)) st
    (fun c =>
       url c = "/questions/123" /\
       params c = [("seller_id", toString (meliId (userConfig st)));
                   ("status", "ANSWERED"); ("limit", "25"); ("offset", "0");
                   ("api_version", "4")]).
Proof.
  eapply every_request_impl; [|apply getQuestions_requests].
  intros c Hc. cbv beta in Hc. injection Hc as Hu Hp. split; assumption.
Qed.

(** C6, as the code has it. In a call without a truthy [questionId]: when
    [from] and [item] are both truthy, the query of every request has both,
    once each, and no [seller_id]; when [from] is truthy and [item] is absent
    or falsy, the query has neither of them and has [seller_id], the seller
    of the principal, and the request goes to the search path. *)
Theorem from_item_or_seller (w : World) (filters : GetQuestionsFilters.t) (st : State) :
  truthy_opt (questionId filters) = false ->
  (truthy_opt (from filters) = true ->
   truthy_opt (item filters) = true ->
   every_request (getQuestions w (Some filters)) st
     (fun c =>
        URLSearchParams.getAll "from" (params c) = [stringify (from filters)] /\
        URLSearchParams.getAll "item" (params c) = [stringify (item filters)] /\
        URLSearchParams.has "seller_id" (params c) = false)) /\
  (truthy_opt (from filters) = true ->
   truthy_opt (item filters) = false ->
   every_request (getQuestions w (Some filters)) st
     (fun c =>
        URLSearchParams.has "from" (params c) = false /\
        URLSearchParams.has "item" (params c) = false /\
        URLSearchParams.getAll "seller_id" (params c) = [toString (meliId (userConfig st))] /\
        url c = "/questions/search")).
Proof.
  intros Hq.
  split; intros Hf Hi;
    (eapply every_request_impl; [|apply getQuestions_requests]);
    intros c Hc; cbv beta in Hc;
    pose proof (f_equal fst Hc) as Hu; pose proof (f_equal snd Hc) as Hp;
    cbn [fst snd] in Hu, Hp; rewrite Hp.
  - apply request_from_item; assumption.
  - rewrite Hu, request_path, Hq.
    destruct (request_seller (meliId (userConfig st)) filters Hi) as [H1 [H2 H3]].
    repeat split; assumption.
Qed.

Lemma from_item_or_seller_witness :
  every_request (getQuestions w_refresh_ok (Some from_A_item_B)) st0
    (fun c =>
       URLSearchParams.getAll "from" (params c) = ["A"] /\
       URLSearchParams.getAll "item" (params c) = ["B"] /\
       URLSearchParams.has "seller_id" (params c) = false) /\
  every_request (getQuestions w_refresh_ok (Some from_A)) st0
    (fun c =>
       URLSearchParams.has "from" (params c) = false /\
       URLSearchParams.has "item" (params c) = false /\
       URLSearchParams.getAll "seller_id" (params c) = ["77"] /\
       url c = "/questions/search").
Proof.
  split.
  - apply (proj1 (from_item_or_seller w_refresh_ok from_A_item_B st0 eq_refl)); reflexivity.
  - apply (proj2 (from_item_or_seller w_refresh_ok from_A st0 eq_refl)); reflexivity.
Defined.

(** C6 as stated fails: with [{from: 'A', questionId: 123}], [from] is
    supplied without [item], and the requests carry [seller_id] but go to
    [/questions/123], not to the search path. *)
Lemma from_with_questionId_leaves_search_path :
  truthy_opt (from from_A_123) = true /\
  item from_A_123 = None /\
  getQuestions_request (JNum 77) (Some from_A_123) =
    ("/questions/123",
     [("seller_id", "77"); ("status", "UNANSWERED"); ("limit", "25"); ("offset", "0");
      ("api_version", "4")]) /\
  map url (dispatched (produced (getQuestions w_refresh_ok (Some from_A_123)) st0))
    = ["/questions/123"; "/questions/123"].
Proof. repeat split. Qed.

(** C7. Called without filters, or with an empty filter object,
    [getQuestions] sends its requests to [/questions/search], and their query
    has [limit=25], [offset=0] and [status=UNANSWERED]. *)
Theorem getQuestions_defaults (w : World) (st : State) :
  let defaults c :=
    url c = "/questions/search" /\
    URLSearchParams.getAll "limit" (params c) = ["25"] /\
    URLSearchParams.getAll "offset" (params c) = ["0"] /\
    URLSearchParams.getAll "status" (params c) = ["UNANSWERED"] in
  every_request (getQuestions w None) st defaults /\
  every_request (getQuestions w (Some GetQuestionsFilters.none)) st defaults.
Proof.
  intros defaults. subst defaults.
  split; (eapply every_request_impl; [|apply getQuestions_requests]);
    intros c Hc; cbv beta in Hc;
    rewrite request_defaults in Hc by auto;
    injection Hc as Hu Hp; rewrite Hu, Hp; repeat split.
Qed.

(** C10. Whatever the filters, also with a [questionId], the query of every
    request of [getQuestions] has [api_version=4], once. *)
Theorem getQuestions_api_version (w : World) (filters : option GetQuestionsFilters.t)
    (st : State) :
  every_request (getQuestions w filters) st
    (fun c => In ("api_version", "4") (params c) /\
              URLSearchParams.getAll "api_version" (params c) = ["4"]).
Proof.
  eapply every_request_impl; [|apply getQuestions_requests].
  intros c Hc. cbv beta in Hc.
  pose proof (f_equal snd Hc) as Hp. cbn [snd] in Hp. rewrite Hp.
  split; [|apply request_api_version].
  pose proof (request_api_version (meliId (userConfig st)) filters) as H.
  unfold URLSearchParams.getAll in H.
  assert (Hin : In "4" (map snd (filter (fun kv => (fst kv =? "api_version")%string)
                  (snd (getQuestions_request (meliId (userConfig st)) filters)))))
    by (rewrite H; left; reflexivity).
  apply in_map_iff in Hin. destruct Hin as [[k v] [Hv Hin]].
  apply filter_In in Hin. destruct Hin as [Hin Hk].
  simpl in Hv, Hk. apply String.eqb_eq in Hk. subst. exact Hin.
Qed.

(** *** The catch blocks of the operations *)

Lemma try_catch_block (logs : bool) (m : M Response.t) (st : State) :
  try_catch (returning m) (catch_block logs) st =
  match m st with
  | (Resolved res, st') => (Resolved (VResponse res), st')
  | (Rejected e, st') =>
      (if isAxiosError e then Resolved (error_response e) else Rejected e,
       if logs then record (EvConsole (LogError e)) st' else st')
  | (OutOfFuel, st') => (OutOfFuel, st')
  end.
Proof.
  unfold try_catch, returning, bind, ret.
  destruct (m st) as [[res|e|] st']; try reflexivity.
  unfold catch_block, bind, console_log, emit_event, ret, throw.
  destruct logs, (isAxiosError e); reflexivity.
Qed.

Lemma try_catch_getItem (m : M Response.t) (st : State) :
  try_catch (returning m) (fun error => ret (error_response error)) st =
  match m st with
  | (Resolved res, st') => (Resolved (VResponse res), st')
  | (Rejected e, st') => (Resolved (error_response e), st')
  | (OutOfFuel, st') => (OutOfFuel, st')
  end.
Proof.
  unfold try_catch, returning, bind, ret.
  destruct (m st) as [[res|e|] st']; reflexivity.
Qed.

(** Every operation is one call of the instance inside a [try], with the
    shared [catch] block or, for [getItem], with its own. *)
Lemma invoke_shape (w : World) (op : Operation) (st : State) :
  exists config,
    (is_getItem op = true /\
     invoke w op st =
     try_catch (returning (httpInstance retry_depth w config))
       (fun error => ret (error_response error)) st) \/
    (is_getItem op = false /\
     exists logs,
       invoke w op st =
       try_catch (returning (httpInstance retry_depth w config)) (catch_block logs) st).
Proof.
  destruct op; cbn [invoke is_getItem];
    try (eexists; right; split; [reflexivity|]; eexists; reflexivity);
    try (eexists; left; split; reflexivity).
  exists (getQuestions_config (meliId (userConfig st)) filters).
  right. split; [reflexivity|]. exists false.
  unfold getQuestions, getQuestions_config, bind, get_sellerId.
  destruct (getQuestions_request (meliId (userConfig st)) filters). reflexivity.
Qed.

Lemma httpInstance_extends (w : World) (config : RequestConfig) (st : State) :
  exists new, log (snd (httpInstance retry_depth w config st)) = log st ++ new.
Proof.
  unfold retry_depth.
  destruct (sent config) eqn:Hs.
  - rewrite httpInstance_other by (right; exact Hs). eexists. reflexivity.
  - destruct (reply_401_dec (adapter w (log st) (outgoing w st config))) as [[body H]|H].
    + rewrite (httpInstance_refreshes _ _ _ _ _ Hs H).
      destruct (refreshAccessToken w _ _) as [e|[a r|reason]];
        try (eexists; apply log_after_refresh).
      destruct (emitAsync w _ _ _) as [e|]; [eexists; apply log_after_emit|].
      rewrite httpInstance_retry. eexists. apply log_after_retry.
    + rewrite httpInstance_other by (left; exact H). eexists. reflexivity.
Qed.

(** C8, as the code has it. Every operation makes one call of the instance.
    When the call resolves, the operation returns the response. When the call
    is rejected with an axios error, the operation returns that error's
    [response]: the upstream's error response when there is one, [undefined]
    when the failure is at network level. When it is rejected with anything
    else, every operation but [getItem] raises it to the caller. *)
Theorem operations_return_axios_errors (w : World) (op : Operation) (st : State) :
  exists config,
    dispatched (produced (invoke w op) st)
      = dispatched (produced (httpInstance retry_depth w config) st) /\
    match fst (httpInstance retry_depth w config st) with
    | Resolved res => fst (invoke w op st) = Resolved (VResponse res)
    | Rejected e =>
        if isAxiosError e then fst (invoke w op st) = Resolved (error_response e)
        else is_getItem op = false -> fst (invoke w op st) = Rejected e
    | OutOfFuel => False
    end.
Proof.
  destruct (invoke_shape w op st) as [config [[Hg E]|[Hg [logs E]]]];
    exists config;
    pose proof (httpInstance_completes retry_depth w config st (le_n 2)) as Hc;
    destruct (httpInstance_extends w config st) as [new Hnew];
    unfold produced; rewrite E;
    [rewrite try_catch_getItem | rewrite try_catch_block];
    destruct (httpInstance retry_depth w config st) as [[res|e|] st'];
    cbn [fst snd] in *; try (split; reflexivity); try contradiction.
  - split; [reflexivity|]. destruct (isAxiosError e); [reflexivity|].
    rewrite Hg. discriminate.
  - split.
    + destruct logs; [|reflexivity].
      rewrite record_log, Hnew, <- app_assoc, !skipn_length_app.
      apply dispatched_console.
    + destruct (isAxiosError e); [reflexivity|]. intros _. reflexivity.
Qed.

(** C8 as stated fails. The connection is reset, the call of the instance
    is rejected with an axios error that has no response, and [getResource]
    returns [undefined] to its caller instead of raising. And where
    [getResource] raises the exception that asks to link the integration
    again, [getItem], whose [catch] block has no test, returns the object the
    exception was built from. *)
Lemma network_failure_is_returned :
  fst (axios_get w_offline "/sites/MLA" [] st0)
    = Rejected (AxiosError
                  (outgoing w_offline st0 (mkRequest "" GET "/sites/MLA" [] None None false))
                  None) /\
  fst (invoke w_offline (GetResource (JStr "/sites/MLA")) st0) = Resolved VUndefined /\
  fst (axios_get w_refresh_fails "/items/MLA1" [] st0)
    = Rejected (UnauthorizedException "Please link meli again" LinkMeli) /\
  fst (invoke w_refresh_fails (GetResource (JStr "/items/MLA1")) st0)
    = Rejected (UnauthorizedException "Please link meli again" LinkMeli) /\
  fst (invoke w_refresh_fails (GetItem (JStr "MLA1") None) st0)
    = Resolved (VExceptionBody "Please link meli again" LinkMeli).
Proof. repeat split. Qed.

(** * Further properties *)

(** *** The states a call can end in *)

Lemma httpInstance_ending (n : nat) (w : World) (config : RequestConfig) (st : State) :
  Ending w config st (snd (httpInstance (S (S n)) w config st)).
Proof.
  destruct (run_cases w config st) as [[body [Hs H]]|H].
  - destruct (refreshAccessToken w (before_refresh w st config) (meliRefresh (userConfig st)))
      as [e|[a r|reason]] eqn:Hr.
    + rewrite (refresh_rejected w config st body Hs H (S n) e Hr). constructor.
    + destruct (emitAsync w (before_emit w st config a r) "meli.tokens.update"
                  (RefreshTokens a r)) as [e|] eqn:He.
      * rewrite (broadcast_rejected w config st body Hs H (S n) a r e Hr He).
        constructor. exact Hr.
      * rewrite (refreshed_and_retried w config st body Hs H n a r Hr He).
        constructor. exact Hr.
    + rewrite (refresh_failed w config st body Hs H (S n) reason Hr). constructor.
  - rewrite (httpInstance_other (S n) w config st H). constructor.
Qed.

(** An operation ends where its call of the instance ends, but for the line
    that its [catch] block writes to the console. *)
Lemma invoke_ending (w : World) (op : Operation) (st : State) :
  exists config st',
    Ending w config st st' /\
    (snd (invoke w op st) = st' \/
     exists e, snd (invoke w op st) = record (EvConsole (LogError e)) st').
Proof.
  destruct (invoke_shape w op st) as [config [[_ E]|[_ [logs E]]]];
    exists config, (snd (httpInstance retry_depth w config st));
    (split; [apply httpInstance_ending|]); rewrite E.
  - rewrite try_catch_getItem.
    destruct (httpInstance retry_depth w config st) as [[res|e|] st']; left; reflexivity.
  - rewrite try_catch_block.
    destruct (httpInstance retry_depth w config st) as [[res|e|] st'];
      try (left; reflexivity).
    destruct logs; [right; exists e|left]; reflexivity.
Qed.

Ltac by_ending w op st :=
  let config := fresh "config" in
  let st' := fresh "st'" in
  let Hend := fresh "Hend" in
  let E := fresh "E" in
  let e := fresh "e" in
  destruct (invoke_ending w op st) as [config [st' [Hend [E|[e E]]]]];
  unfold produced; rewrite E; clear E;
  destruct Hend;
  rewrite ?record_log; autorewrite with logs.

(** *** Every operation *)

(** X1. Every request that an operation hands to the adapter has the base
    URL of the configuration and an Authorization header made of [Bearer] and
    a stored access token: the first request the token stored when the
    operation starts, a second one the token stored when it ends. *)
Theorem operations_send_bearer (w : World) (op : Operation) (st : State) :
  exists first rest,
    dispatched (produced (invoke w op) st) = first :: rest /\
    Authorization first = Some ("Bearer " ++ meliAccess (userConfig st))%string /\
    Forall (fun c => Authorization c
                     = Some ("Bearer " ++ meliAccess (userConfig (snd (invoke w op st))))%string)
      rest /\
    Forall (fun c => baseURL c = MELI_API_URL w) (first :: rest).
Proof.
  by_ending w op st;
    eexists; eexists; (split; [reflexivity|]); repeat split; repeat constructor.
Qed.

(** X2. Every operation dispatches once or twice and makes at most one
    refresh exchange, with the refresh token stored when it starts; it
    dispatches twice only when it has made a refresh exchange. *)
Theorem operations_dispatch_twice_at_most (w : World) (op : Operation) (st : State) :
  let new := produced (invoke w op) st in
  (1 <= length (dispatched new) <= 2)%nat /\
  (refreshes new = [] \/ refreshes new = [meliRefresh (userConfig st)]) /\
  (length (dispatched new) = 2%nat -> refreshes new = [meliRefresh (userConfig st)]).
Proof.
  by_ending w op st; simpl; repeat split; auto; try lia; discriminate.
Qed.

(** X3. No operation changes the seller of the principal, and an operation
    that makes no broadcast, and so every operation that makes no refresh
    exchange, leaves both stored tokens as they were. *)
Theorem operations_keep_seller (w : World) (op : Operation) (st : State) :
  meliId (userConfig (snd (invoke w op st))) = meliId (userConfig st) /\
  (broadcasts (produced (invoke w op) st) = [] ->
   userConfig (snd (invoke w op st)) = userConfig st) /\
  (refreshes (produced (invoke w op) st) = [] ->
   broadcasts (produced (invoke w op) st) = []).
Proof.
  by_ending w op st; simpl; repeat split; try reflexivity; discriminate.
Qed.

(** X4. The only broadcast an operation makes is [meli.tokens.update], at
    most once, and its payload is the pair of tokens that the operation
    leaves in the store. *)
Theorem broadcast_matches_store (w : World) (op : Operation) (st : State) :
  let st' := snd (invoke w op st) in
  broadcasts (produced (invoke w op) st) = [] \/
  broadcasts (produced (invoke w op) st)
    = [("meli.tokens.update",
        RefreshTokens (meliAccess (userConfig st')) (meliRefresh (userConfig st')))].
Proof.
  by_ending w op st; simpl; auto.
Qed.

(** X5. When the upstream answers with a status other than 401, every
    operation returns the upstream's answer to its caller as a value, be the
    status 2xx or an error status; it has dispatched once, made no refresh
    exchange and left the stored tokens alone. *)
Theorem operations_return_upstream_answer (w : World) (op : Operation) (st : State)
    (status : Z) (body : string) :
  (forall c, adapter w (log st) c = Replied status body) ->
  status <> 401 ->
  exists r,
    fst (invoke w op st) = Resolved (VResponse r) /\
    Response.status r = status /\
    Response.data r = body /\
    dispatched (produced (invoke w op) st) = [Response.config r] /\
    refreshes (produced (invoke w op) st) = [] /\
    userConfig (snd (invoke w op st)) = userConfig st.
Proof.
  intros Hup Hs.
  destruct (invoke_shape w op st) as [config [[_ E]|[_ [logs E]]]];
    exists (Response.mk status body (outgoing w st config));
    unfold produced; rewrite E; clear E;
    [rewrite try_catch_getItem | rewrite try_catch_block];
    (unfold retry_depth; rewrite httpInstance_other;
     [|left; intros b Q; rewrite Hup in Q; inversion Q; contradiction]);
    rewrite Hup; unfold settle; destruct (validateStatus status);
    try destruct logs;
    cbn [fst snd isAxiosError error_response Response.status Response.data Response.config];
    rewrite ?record_log; autorewrite with logs; repeat split.
Qed.

Lemma operations_return_upstream_answer_witness :
  exists r,
    fst (invoke w_forbidden (GetItem (JStr "MLA1") None) st0) = Resolved (VResponse r) /\
    Response.status r = 403 /\
    Response.data r = "forbidden" /\
    dispatched (produced (invoke w_forbidden (GetItem (JStr "MLA1") None)) st0)
      = [Response.config r] /\
    refreshes (produced (invoke w_forbidden (GetItem (JStr "MLA1") None)) st0) = [] /\
    userConfig (snd (invoke w_forbidden (GetItem (JStr "MLA1") None) st0)) = userConfig st0.
Proof.
  apply (operations_return_upstream_answer w_forbidden (GetItem (JStr "MLA1") None) st0
           403 "forbidden").
  - intros c. reflexivity.
  - discriminate.
Defined.

(** The request that an operation passes to the instance carries no mark. *)
Lemma invoke_call (w : World) (op : Operation) (st : State) :
  exists config,
    sent config = false /\
    ((is_getItem op = true /\
      invoke w op st =
      try_catch (returning (httpInstance retry_depth w config))
        (fun error => ret (error_response error)) st) \/
     (is_getItem op = false /\
      exists logs,
        invoke w op st =
        try_catch (returning (httpInstance retry_depth w config)) (catch_block logs) st)).
Proof.
  destruct op; cbn [invoke is_getItem];
    try (eexists; split; [|right; split; [|eexists]; reflexivity]; reflexivity);
    try (eexists; split; [|left; split; reflexivity]; reflexivity).
  exists (getQuestions_config (meliId (userConfig st)) filters).
  split; [reflexivity|]. right. split; [reflexivity|]. exists false.
  unfold getQuestions, getQuestions_config, bind, get_sellerId.
  destruct (getQuestions_request (meliId (userConfig st)) filters). reflexivity.
Qed.

Section Recovery.

(** The stored access token is refused, the refresh endpoint returns the pair
    [a], [r], and the listeners of the broadcast succeed. *)
Variables (w : World) (st : State) (a r expired : string).
Hypothesis Hstale :
  forall l c,
    Authorization c = Some ("Bearer " ++ meliAccess (userConfig st))%string ->
    adapter w l c = Replied 401 expired.
Hypothesis Hrefresh : forall l token, refreshAccessToken w l token = inr (RefreshTokens a r).
Hypothesis Hemit : forall l name d, emitAsync w l name d = None.

(** The call of an operation, up to the reply to its second dispatch. *)
Lemma recovery_run (config : RequestConfig) :
  sent config = false ->
  httpInstance retry_depth w config st =
  (settle (retried w st config a)
     (adapter w (log (after_emit w st config a r)) (retried w st config a)),
   record (EvDispatch (retried w st config a)) (after_emit w st config a r)).
Proof.
  intros Hs.
  apply (refreshed_and_retried w config st expired Hs
           (Hstale (log st) (outgoing w st config) eq_refl) 0 a r
           (Hrefresh _ _) (Hemit _ _ _)).
Qed.

(** X6. The stored access token has expired and the upstream accepts the
    refreshed one: every operation returns the upstream's answer to the
    second dispatch, and the 401 never reaches its caller; the new pair is
    stored, and the console has the line of the refresh and no error. *)
Theorem operations_recover_from_expired_token (op : Operation) (status : Z) (body : string) :
  validateStatus status = true ->
  (forall l c,
     Authorization c = Some ("Bearer " ++ a)%string -> adapter w l c = Replied status body) ->
  exists res,
    fst (invoke w op st) = Resolved (VResponse res) /\
    Response.status res = status /\
    Response.data res = body /\
    length (dispatched (produced (invoke w op) st)) = 2%nat /\
    consoles (produced (invoke w op) st) = [LogText "refreshing after request error"] /\
    meliAccess (userConfig (snd (invoke w op st))) = a /\
    meliRefresh (userConfig (snd (invoke w op st))) = r.
Proof.
  intros Hv Hfresh.
  destruct (invoke_call w op st) as [config [Hs [[_ E]|[_ [logs E]]]]];
    exists (Response.mk status body (retried w st config a));
    unfold produced; rewrite E; clear E;
    [rewrite try_catch_getItem | rewrite try_catch_block];
    rewrite (recovery_run config Hs),
      (Hfresh (log (after_emit w st config a r)) (retried w st config a) eq_refl);
    unfold settle; rewrite Hv;
    cbn [fst snd Response.status Response.data];
    autorewrite with logs; repeat split.
Qed.

(** X7. The upstream refuses the refreshed token as well: every operation
    returns the second 401 to its caller as a value, after two dispatches and
    one refresh exchange, and does not refresh again; the new pair stays
    stored. *)
Theorem operations_stop_at_second_401 (op : Operation) :
  (forall l c, adapter w l c = Replied 401 expired) ->
  exists res,
    fst (invoke w op st) = Resolved (VResponse res) /\
    Response.status res = 401 /\
    Authorization (Response.config res) = Some ("Bearer " ++ a)%string /\
    sent (Response.config res) = true /\
    length (dispatched (produced (invoke w op) st)) = 2%nat /\
    refreshes (produced (invoke w op) st) = [meliRefresh (userConfig st)] /\
    meliAccess (userConfig (snd (invoke w op st))) = a /\
    meliRefresh (userConfig (snd (invoke w op st))) = r.
Proof.
  intros Hup.
  destruct (invoke_call w op st) as [config [Hs [[_ E]|[_ [logs E]]]]];
    exists (Response.mk 401 expired (retried w st config a));
    unfold produced; rewrite E; clear E;
    [rewrite try_catch_getItem | rewrite try_catch_block];
    rewrite (recovery_run config Hs), Hup;
    try destruct logs;
    cbn [fst snd settle validateStatus Z.leb Z.ltb Z.compare Pos.compare Pos.compare_cont
         andb isAxiosError error_response Response.status Response.config];
    rewrite ?record_log; autorewrite with logs; repeat split.
Qed.

End Recovery.

Lemma operations_recover_from_expired_token_witness :
  exists res,
    fst (invoke w_refresh_ok (GetOrders (Some "recent")) st0) = Resolved (VResponse res) /\
    Response.status res = 200 /\
    Response.data res = "ok" /\
    length (dispatched (produced (invoke w_refresh_ok (GetOrders (Some "recent"))) st0)) = 2%nat /\
    consoles (produced (invoke w_refresh_ok (GetOrders (Some "recent"))) st0)
      = [LogText "refreshing after request error"] /\
    meliAccess (userConfig (snd (invoke w_refresh_ok (GetOrders (Some "recent")) st0)))
      = "fresh-access" /\
    meliRefresh (userConfig (snd (invoke w_refresh_ok (GetOrders (Some "recent")) st0)))
      = "refresh-2".
Proof.
  apply (operations_recover_from_expired_token w_refresh_ok st0 "fresh-access" "refresh-2"
           "expired").
  - intros l c H. unfold w_refresh_ok, upstream. cbn [adapter]. rewrite H. reflexivity.
  - intros l token. reflexivity.
  - intros l name d. reflexivity.
  - reflexivity.
  - intros l c H. unfold w_refresh_ok, upstream. cbn [adapter]. rewrite H. reflexivity.
Defined.

Lemma operations_stop_at_second_401_witness :
  exists res,
    fst (invoke w_always_401 (DeleteQuestion (JNum 5)) st0) = Resolved (VResponse res) /\
    Response.status res = 401 /\
    Authorization (Response.config res) = Some "Bearer fresh-access" /\
    sent (Response.config res) = true /\
    length (dispatched (produced (invoke w_always_401 (DeleteQuestion (JNum 5))) st0)) = 2%nat /\
    refreshes (produced (invoke w_always_401 (DeleteQuestion (JNum 5))) st0) = ["refresh-1"] /\
    meliAccess (userConfig (snd (invoke w_always_401 (DeleteQuestion (JNum 5)) st0)))
      = "fresh-access" /\
    meliRefresh (userConfig (snd (invoke w_always_401 (DeleteQuestion (JNum 5)) st0)))
      = "refresh-2".
Proof.
  apply (operations_stop_at_second_401 w_always_401 st0 "fresh-access" "refresh-2" "expired").
  - intros l c _. reflexivity.
  - intros l token. reflexivity.
  - intros l name d. reflexivity.
  - intros l c. reflexivity.
Defined.

Section RefreshGivesNoTokens.

(** The stored access token is refused. *)
Variables (w : World) (st : State) (expired : string).
Hypothesis Hstale :
  forall l c,
    Authorization c = Some ("Bearer " ++ meliAccess (userConfig st))%string ->
    adapter w l c = Replied 401 expired.

(** X8. When the refresh endpoint answers with an error payload, every
    operation with the shared [catch] block raises the exception that asks to
    link the integration again, and [getItem] returns the object the
    exception was built from; the operation has dispatched once and the
    stored tokens are what they were. *)
Theorem operations_ask_to_link_again (op : Operation) :
  (forall l token, exists reason, refreshAccessToken w l token = inr (RefreshFailure reason)) ->
  fst (invoke w op st) =
    (if is_getItem op
     then Resolved (VExceptionBody "Please link meli again" LinkMeli)
     else Rejected (UnauthorizedException "Please link meli again" LinkMeli)) /\
  length (dispatched (produced (invoke w op) st)) = 1%nat /\
  broadcasts (produced (invoke w op) st) = [] /\
  userConfig (snd (invoke w op st)) = userConfig st.
Proof.
  intros Hfail.
  destruct (invoke_call w op st) as [config [Hs [[Hg E]|[Hg [logs E]]]]];
    rewrite Hg;
    destruct (Hfail (before_refresh w st config) (meliRefresh (userConfig st))) as [reason Hr];
    pose proof (refresh_failed w config st expired Hs
                  (Hstale (log st) (outgoing w st config) eq_refl) 1 reason Hr) as R;
    unfold produced; rewrite E; clear E;
    [rewrite try_catch_getItem | rewrite try_catch_block];
    unfold retry_depth; rewrite R; try destruct logs;
    cbn [fst snd isAxiosError error_response];
    rewrite ?record_log; autorewrite with logs; repeat split.
Qed.

(** X9. When the call of the refresh endpoint is itself rejected, the error
    reaches the [catch] block of the operation as an error of the dispatch
    would: an axios error is returned as its [response], any other error is
    raised, except by [getItem], which returns its [response]. Nothing is
    dispatched again and the stored tokens are what they were. *)
Theorem operations_pass_refresh_rejection (op : Operation) (e : Error) :
  (forall l token, refreshAccessToken w l token = inl e) ->
  fst (invoke w op st) =
    (if isAxiosError e || is_getItem op then Resolved (error_response e) else Rejected e) /\
  length (dispatched (produced (invoke w op) st)) = 1%nat /\
  refreshes (produced (invoke w op) st) = [meliRefresh (userConfig st)] /\
  userConfig (snd (invoke w op st)) = userConfig st.
Proof.
  intros Hdown.
  destruct (invoke_call w op st) as [config [Hs [[Hg E]|[Hg [logs E]]]]];
    rewrite Hg;
    pose proof (refresh_rejected w config st expired Hs
                  (Hstale (log st) (outgoing w st config) eq_refl) 1 e (Hdown _ _)) as R;
    unfold produced; rewrite E; clear E;
    [rewrite try_catch_getItem | rewrite try_catch_block];
    unfold retry_depth; rewrite R; try destruct logs;
    rewrite ?orb_true_r, ?orb_false_r; cbn [fst snd];
    rewrite ?record_log; autorewrite with logs; repeat split.
Qed.

End RefreshGivesNoTokens.

Lemma operations_ask_to_link_again_witness :
  fst (invoke w_refresh_fails (AnswerQuestion (JNum 5) (JStr "yes")) st0)
    = Rejected (UnauthorizedException "Please link meli again" LinkMeli) /\
  length (dispatched (produced (invoke w_refresh_fails (AnswerQuestion (JNum 5) (JStr "yes")))
                        st0)) = 1%nat /\
  broadcasts (produced (invoke w_refresh_fails (AnswerQuestion (JNum 5) (JStr "yes"))) st0) = [] /\
  userConfig (snd (invoke w_refresh_fails (AnswerQuestion (JNum 5) (JStr "yes")) st0))
    = userConfig st0.
Proof.
  apply (operations_ask_to_link_again w_refresh_fails st0 "expired").
  - intros l c H. unfold w_refresh_fails, upstream. cbn [adapter]. rewrite H. reflexivity.
  - intros l token. exists "invalid_grant". reflexivity.
Defined.

Lemma operations_pass_refresh_rejection_witness :
  fst (invoke w_refresh_down (PauseItem (JStr "MLA1")) st0)
    = Rejected (OtherError "ECONNREFUSED") /\
  length (dispatched (produced (invoke w_refresh_down (PauseItem (JStr "MLA1"))) st0)) = 1%nat /\
  refreshes (produced (invoke w_refresh_down (PauseItem (JStr "MLA1"))) st0) = ["refresh-1"] /\
  userConfig (snd (invoke w_refresh_down (PauseItem (JStr "MLA1")) st0)) = userConfig st0.
Proof.
  apply (operations_pass_refresh_rejection w_refresh_down st0 "expired"
           (fun l c H => ltac:(unfold w_refresh_down, upstream; cbn [adapter];
                               rewrite H; reflexivity))
           (PauseItem (JStr "MLA1")) (OtherError "ECONNREFUSED")).
  intros l token. reflexivity.
Defined.


(** X10. [getItem] never raises: whatever the upstream, the refresh endpoint
    and the listeners do, the promise it returns resolves. *)
Theorem getItem_never_raises (w : World) (itemId : JsPrim) (attrs : option (list string))
    (st : State) :
  exists v, fst (getItem w itemId attrs st) = Resolved v.
Proof.
  unfold getItem. rewrite try_catch_getItem. unfold axios_get, axios.
  match goal with
  | |- context [httpInstance retry_depth w ?c st] =>
      pose proof (httpInstance_completes retry_depth w c st (le_n 2)) as H;
      destruct (httpInstance retry_depth w c st) as [[res|e|] st']
  end.
  - eexists. reflexivity.
  - eexists. reflexivity.
  - exfalso. apply H. reflexivity.
Qed.

(** *** More on the query of getQuestions *)




(** X12. A truthy [questionId] changes the path and nothing else: the
    requests go to [/questions/{questionId}] with the very query that the
    other filters give without it. *)
Theorem questionId_changes_only_the_path (w : World) (filters : GetQuestionsFilters.t)
    (st : State) :
  truthy_opt (questionId filters) = true ->
  every_request (getQuestions w (Some filters)) st
    (fun c =>
       url c = ("/questions/" ++ stringify (questionId filters))%string /\
       params c =
       snd (getQuestions_request (meliId (userConfig st))
              (Some (GetQuestionsFilters.mk (from filters) (item filters)
                       (GetQuestionsFilters.status filters) (sort filters) (limit filters)
                       (offset filters) None)))).
Proof.
  intros Hq.
  eapply every_request_impl; [|apply getQuestions_requests].
  intros c Hc. cbv beta in Hc.
  pose proof (f_equal fst Hc) as Hu. pose proof (f_equal snd Hc) as Hp.
  cbn [fst snd] in Hu, Hp.
  rewrite Hu, Hp, request_path, Hq. split; [reflexivity|].
  apply request_question. exact Hq.
Qed.

Lemma questionId_changes_only_the_path_witness :
  every_request (getQuestions w_refresh_ok (Some answered_123)) st0
    (fun c =>
       url c = "/questions/123" /\
       params c =
       snd (getQuestions_request (JNum 77)
              (Some (GetQuestionsFilters.mk None None (Some (JStr "ANSWERED")) None None None
                       None)))).
Proof.
  apply (questionId_changes_only_the_path w_refresh_ok answered_123 st0). reflexivity.
Defined.

Lemma request_names (sellerId : JsPrim) (filters : option GetQuestionsFilters.t) :
  let query := snd (getQuestions_request sellerId filters) in
  NoDup (map fst query) /\
  incl ["status"; "limit"; "offset"; "api_version"] (map fst query) /\
  URLSearchParams.has "seller_id" query = negb (URLSearchParams.has "from" query) /\
  URLSearchParams.has "from" query = URLSearchParams.has "item" query /\
  URLSearchParams.has "sort_types" query = URLSearchParams.has "sort_fields" query.
Proof.
  destruct filters as [[f i s so l o q]|]; questions_cases;
    (split; [repeat constructor; simpl; intuition discriminate|]);
    (split; [intros x Hx; simpl in Hx; simpl; intuition|]);
    repeat split.
Qed.

(** X13. Whatever the filters, no name occurs twice in the query of a
    request of [getQuestions]; [status], [limit], [offset] and [api_version]
    are always there; the query has either [seller_id] or the pair [from]
    and [item], never both and never half the pair; and [sort_types] comes
    with [sort_fields]. *)
Theorem getQuestions_query_names (w : World) (filters : option GetQuestionsFilters.t)
    (st : State) :
  every_request (getQuestions w filters) st
    (fun c =>
       NoDup (map fst (params c)) /\
       incl ["status"; "limit"; "offset"; "api_version"] (map fst (params c)) /\
       URLSearchParams.has "seller_id" (params c)
         = negb (URLSearchParams.has "from" (params c)) /\
       URLSearchParams.has "from" (params c) = URLSearchParams.has "item" (params c) /\
       URLSearchParams.has "sort_types" (params c)
         = URLSearchParams.has "sort_fields" (params c)).
Proof.
  eapply every_request_impl; [|apply getQuestions_requests].
  intros c Hc. cbv beta in Hc.
  pose proof (f_equal snd Hc) as Hp. cbn [snd] in Hp. rewrite Hp.
  apply request_names.
Qed.

(** *** The orders *)

Lemma catch_block_dispatched (logs : bool) (w : World) (config : RequestConfig) (st : State) :
  dispatched (produced (try_catch (returning (httpInstance retry_depth w config))
                          (catch_block logs)) st)
  = dispatched (produced (httpInstance retry_depth w config) st).
Proof.
  destruct (httpInstance_extends w config st) as [new Hnew].
  unfold produced. rewrite try_catch_block.
  destruct (httpInstance retry_depth w config st) as [[res|e|] st']; try reflexivity.
  destruct logs; [|reflexivity].
  cbn [fst snd] in *. rewrite record_log, Hnew, <- app_assoc, !skipn_length_app.
  apply dispatched_console.
Qed.

Ltac next_character f :=
  destruct f as [|[[|] [|] [|] [|] [|] [|] [|] [|]] f]; try reflexivity.

Lemma getOrders_path (sellerId : JsPrim) (f : string) :
  match f with
  | "recent" =>
      ("/orders/search/recent?seller=" ++ toString sellerId ++ "&sort=date_desc")%string
  | "pending" =>
      ("/orders/search/pending?seller=" ++ toString sellerId ++ "&sort=date_desc")%string
  | "archived" =>
      ("/orders/search/archived?seller=" ++ toString sellerId ++ "&sort=date_desc")%string
  | _ => ("/orders/search?seller=" ++ toString sellerId ++ "&sort=date_desc")%string
  end =
  ((if existsb (String.eqb f) ["recent"; "pending"; "archived"]
    then "/orders/search/" ++ f else "/orders/search")
     ++ "?seller=" ++ toString sellerId ++ "&sort=date_desc")%string.
Proof.
  do 9 (try next_character f).
Qed.

Lemma getOrders_call (w : World) (filters : option string) (st : State) :
  getOrders w filters st =
  try_catch
    (returning
       (httpInstance retry_depth w
          (mkRequest "" GET
             ((match filters with
               | Some f =>
                   if existsb (String.eqb f) ["recent"; "pending"; "archived"]
                   then "/orders/search/" ++ f else "/orders/search"
               | None => "/orders/search"
               end) ++ "?seller=" ++ toString (meliId (userConfig st)) ++ "&sort=date_desc")%string
             [] None None false)))
    (catch_block true) st.
Proof.
  unfold getOrders, bind, get_sellerId, axios_get, axios.
  destruct filters as [f|]; [|reflexivity].
  rewrite getOrders_path. reflexivity.
Qed.

(** X14. [getOrders] sends a GET without query object to
    [/orders/search/{filter}] when the filter is [recent], [pending] or
    [archived], and to [/orders/search] for every other filter and for none;
    the path is always followed by [?seller=], the seller of the principal,
    and [&sort=date_desc]. *)
Theorem getOrders_paths (w : World) (filters : option string) (st : State) :
  let path :=
    match filters with
    | Some f =>
        if existsb (String.eqb f) ["recent"; "pending"; "archived"]
        then ("/orders/search/" ++ f)%string else "/orders/search"
    | None => "/orders/search"
    end in
  every_request (getOrders w filters) st
    (fun c =>
       method c = GET /\
       params c = [] /\
       url c = (path ++ "?seller=" ++ toString (meliId (userConfig st))
                  ++ "&sort=date_desc")%string).
Proof.
  intros path. subst path. unfold every_request.
  assert (E : dispatched (produced (getOrders w filters) st) =
              dispatched (produced
                (try_catch (returning (httpInstance retry_depth w _)) (catch_block true)) st))
    by (unfold produced; rewrite getOrders_call; reflexivity).
  rewrite E, catch_block_dispatched.
  match goal with
  | |- context [httpInstance retry_depth w ?c] =>
      destruct (httpInstance_requests w c st) as [Hne Hall]
  end.
  split; [exact Hne|].
  eapply Forall_impl; [|exact Hall].
  intros c Hc. cbn [method url params data] in Hc. injection Hc as Hm Hu Hp _.
  repeat split; assumption.
Qed.

Lemma JsObject_get_set_same {V} (key : string) (value : V) (o : JsObject.t V) :
  JsObject.get key (JsObject.set key value o) = Some value.
Proof.
  induction o as [|[k v] rest IH]; simpl.
  - rewrite String.eqb_refl. reflexivity.
  - destruct (k =? key)%string eqn:E; simpl; rewrite E; [reflexivity | exact IH].
Qed.

Lemma JsObject_get_set_other {V} (key other : string) (value : V) (o : JsObject.t V) :
  other <> key ->
  JsObject.get other (JsObject.set key value o) = JsObject.get other o.
Proof.
  intros Hne. induction o as [|[k v] rest IH]; simpl.
  - destruct (key =? other)%string eqn:E; [|reflexivity].
    apply String.eqb_eq in E. congruence.
  - destruct (k =? key)%string eqn:E; simpl.
    + apply String.eqb_eq in E. subst k.
      destruct (key =? other)%string eqn:E'; [|reflexivity].
      apply String.eqb_eq in E'. congruence.
    + destruct (k =? other)%string; [reflexivity | exact IH].
Qed.

(** X15. [OrdersController.create] calls the service with an order whose
    [user] is the current user, whatever [user] the body of the request
    carries, and whose other properties are those of the body; a body with
    [user] keeps its keys, one without gets [user] as its last key. *)
Theorem create_sets_the_current_user {V R : Type} (ordersService : OrdersService V R)
    (createOrderDto : JsObject.t V) (user : V) :
  exists order,
    OrdersController.create createOrderDto user = service_create order /\
    JsObject.get "user" order = Some user /\
    (forall key, key <> "user" -> JsObject.get key order = JsObject.get key createOrderDto) /\
    JsObject.keys order =
      (if existsb (String.eqb "user") (JsObject.keys createOrderDto)
       then JsObject.keys createOrderDto
       else JsObject.keys createOrderDto ++ ["user"]).
Proof.
  exists (JsObject.set "user" user createOrderDto).
  split; [reflexivity|].
  split; [apply JsObject_get_set_same|].
  split; [intros key Hk; apply JsObject_get_set_other; exact Hk|].
  unfold JsObject.keys.
  induction createOrderDto as [|[k v] rest IH]; [reflexivity|].
  cbn [JsObject.set map fst existsb]. rewrite (String.eqb_sym "user" k).
  destruct (k =? "user")%string; cbn [map fst orb]; [reflexivity|].
  rewrite IH. destruct (existsb (String.eqb "user") (map fst rest)); reflexivity.
Qed.
